(** * Recurring-event update scope resolver of google-calendar-mcp

    A shallow embedding of
    - [src/schemas/validators.ts]  (the zod schema [UpdateEventArgumentsSchema]),
    - [src/handlers/core/UpdateEventHandler.ts]  (the scope resolver),
    and the properties of the update path that the specification states.

    JavaScript values are an inductive type, objects are finite maps from
    property names to values, the zod combinators are functions from a raw
    value to an optional typed result, and the asynchronous handler is a
    finite tree of service calls that is run against an arbitrary service. *)

From Stdlib Require Import ZArith String Ascii List Bool Lia.
From stdpp Require Import base option gmap strings list fin_maps.

Set Warnings "-register-all".
Local Open Scope string_scope.
Local Open Scope Z_scope.

(* ===================================================================== *)
(** ** JavaScript values *)
(* ===================================================================== *)

(** A JS number is an IEEE-754 binary64; it is kept as its 64-bit pattern. *)
Inductive JSValue : Type :=
| JUndefined
| JNull
| JBool (b : bool)
| JNum (bits : Z)
| JStr (s : string)
| JArr (l : list JSValue)
| JObj (o : gmap string JSValue).

Definition f64_exponent (bits : Z) : Z := Z.land (Z.shiftr bits 52) 2047.
Definition f64_mantissa (bits : Z) : Z := Z.land bits (Z.ones 52).

(** [isNaN]: exponent all ones and a non-zero mantissa. *)
Definition f64_isNaN (bits : Z) : bool :=
  (f64_exponent bits =? 2047) && negb (f64_mantissa bits =? 0).

(** [+0] and [-0]: everything but the sign bit is zero. *)
Definition f64_isZero (bits : Z) : bool := Z.land bits (Z.ones 63) =? 0.

Definition string_nonempty (s : string) : bool :=
  match s with EmptyString => false | String _ _ => true end.

(** ToBoolean of the language: what [!x], [x || y] and [if (x)] test. *)
Definition truthy (v : JSValue) : bool :=
  match v with
  | JUndefined | JNull => false
  | JBool b => b
  | JNum n => negb (f64_isNaN n) && negb (f64_isZero n)
  | JStr s => string_nonempty s
  | JArr _ | JObj _ => true
  end.

(** An optional string property ([string | undefined]) as a value. *)
Definition of_opt_string (o : option string) : JSValue :=
  match o with Some s => JStr s | None => JUndefined end.

Definition truthy_str (o : option string) : bool := truthy (of_opt_string o).

(** [a || b] on optional strings. *)
Definition js_or (a b : option string) : option string :=
  if truthy_str a then a else b.

(** Property read [o.k] on an object: a missing key reads as [undefined]. *)
Definition prop (o : gmap string JSValue) (k : string) : JSValue :=
  default JUndefined (o !! k).

(* ===================================================================== *)
(** ** The date-time pattern of validators.ts *)
(* ===================================================================== *)

Module Regex.

(** The pieces the pattern [isoDateTimeWithTimezone] is made of. *)
Inductive atom : Type :=
| Digit                 (* \d *)
| Lit (c : ascii).      (* a literal character *)

Definition is_digit (c : ascii) : bool :=
  let n := N_of_ascii c in (48 <=? n)%N && (n <=? 57)%N.

Definition atom_ok (a : atom) (c : ascii) : bool :=
  match a with
  | Digit => is_digit c
  | Lit d => Ascii.eqb c d
  end.

(** Match a sequence of atoms at the head of [s]; the rest of [s] on success. *)
Fixpoint eat (p : list atom) (s : string) : option string :=
  match p with
  | [] => Some s
  | a :: p' =>
      match s with
      | EmptyString => None
      | String c s' => if atom_ok a c then eat p' s' else None
      end
  end.

Definition d2 : list atom := [Digit; Digit].
Definition d4 : list atom := [Digit; Digit; Digit; Digit].

(** [\d{4}-\d{2}-\d{2}T\d{2}:\d{2}:\d{2}] *)
Definition date_time_part : list atom :=
  d4 ++ [Lit "-"%char] ++ d2 ++ [Lit "-"%char] ++ d2 ++ [Lit "T"%char]
     ++ d2 ++ [Lit ":"%char] ++ d2 ++ [Lit ":"%char] ++ d2.

(** [\d{2}:\d{2}] *)
Definition offset_part : list atom := d2 ++ [Lit ":"%char] ++ d2.

(** [(Z|[+-]\d{2}:\d{2})$] *)
Definition zone_ok (rest : string) : bool :=
  match rest with
  | String c r =>
      if Ascii.eqb c "Z"%char then
        match r with EmptyString => true | _ => false end
      else if Ascii.eqb c "+"%char || Ascii.eqb c "-"%char then
        match eat offset_part r with
        | Some EmptyString => true
        | _ => false
        end
      else false
  | EmptyString => false
  end.

End Regex.

(** [/^\d{4}-\d{2}-\d{2}T\d{2}:\d{2}:\d{2}(Z|[+-]\d{2}:\d{2})$/.test(s)] *)
Definition isoDateTimeWithTimezone (s : string) : bool :=
  match Regex.eat Regex.date_time_part s with
  | Some rest => Regex.zone_ok rest
  | None => false
  end.

(* ===================================================================== *)
(** ** Time values *)
(* ===================================================================== *)

(** A reference implementation of the two [Date] operations the code relies
    on, for strings of the shape the pattern above accepts: the ECMAScript
    date-time string format as V8 reads it, in milliseconds since the epoch.
    A day of the month from 1 to 31 is taken in every month and carried
    over into the next month where the month is shorter (30 February 2024
    is 1 March 2024).  The development itself is parametric in the engine's
    [Date]; this instance is what the worked examples run on. *)
Module IsoDate.

Definition digit_val (c : ascii) : Z := Z.of_N (N_of_ascii c) - 48.

Fixpoint digits_acc (acc : Z) (s : string) : Z :=
  match s with
  | EmptyString => acc
  | String c s' => digits_acc (10 * acc + digit_val c) s'
  end.

(** The number written in decimal at [s[from .. from+len)]. *)
Definition field (from len : nat) (s : string) : Z :=
  digits_acc 0 (substring from len s).

(** Days between 1970-01-01 and the civil date [y-m-d]; a day [d] past the
    end of the month counts on into the next one. *)
Definition days_from_civil (y m d : Z) : Z :=
  let y' := if m <=? 2 then y - 1 else y in
  let era := y' / 400 in
  let yoe := y' - era * 400 in
  let mp := if 2 <? m then m - 3 else m + 9 in
  let doy := (153 * mp + 2) / 5 + d - 1 in
  let doe := yoe * 365 + yoe / 4 - yoe / 100 + doy in
  era * 146097 + doe - 719468.

(** The civil date of a day number: the inverse of [days_from_civil]. *)
Definition civil_from_days (z : Z) : Z * Z * Z :=
  let z' := z + 719468 in
  let era := z' / 146097 in
  let doe := z' - era * 146097 in
  let yoe := (doe - doe / 1460 + doe / 36524 - doe / 146096) / 365 in
  let doy := doe - (365 * yoe + yoe / 4 - yoe / 100) in
  let mp := (5 * doy + 2) / 153 in
  let d := doy - (153 * mp + 2) / 5 + 1 in
  let m := if mp <? 10 then mp + 3 else mp - 9 in
  let y := yoe + era * 400 in
  (if m <=? 2 then y + 1 else y, m, d).

Definition ms_per_minute : Z := 60000.
Definition ms_per_hour : Z := 3600000.
Definition ms_per_day : Z := 86400000.

(** The offset of the zone designator, in milliseconds east of UTC. *)
Definition zone_offset (s : string) : option Z :=
  match String.get 19 s with
  | Some c =>
      if Ascii.eqb c "Z"%char then Some 0
      else
        let hh := field 20 2 s in
        let mm := field 23 2 s in
        if (hh <=? 23) && (mm <=? 59) then
          let off := hh * ms_per_hour + mm * ms_per_minute in
          Some (if Ascii.eqb c "-"%char then - off else off)
        else None
  | None => None
  end.

(** [Date.parse]: [None] stands for NaN (an invalid date). *)
Definition parse (s : string) : option Z :=
  if isoDateTimeWithTimezone s then
    let y := field 0 4 s in
    let m := field 5 2 s in
    let d := field 8 2 s in
    let hh := field 11 2 s in
    let mi := field 14 2 s in
    let ss := field 17 2 s in
    if (1 <=? m) && (m <=? 12) && (1 <=? d) && (d <=? 31)
       && ((hh <=? 23) || ((hh =? 24) && (mi =? 0) && (ss =? 0)))
       && (mi <=? 59) && (ss <=? 59)
    then
      match zone_offset s with
      | Some off =>
          Some (days_from_civil y m d * ms_per_day
                + hh * ms_per_hour + mi * ms_per_minute + ss * 1000 - off)
      | None => None
      end
    else None
  else None.

Definition digit_char (n : Z) : ascii := ascii_of_N (Z.to_N (48 + n mod 10)).

(** [n] in decimal, zero-padded to [width] digits. *)
Fixpoint pad (width : nat) (n : Z) (acc : string) : string :=
  match width with
  | O => acc
  | S w => pad w (n / 10) (String (digit_char n) acc)
  end.

Definition year_string (y : Z) : string :=
  if (0 <=? y) && (y <=? 9999) then pad 4 y EmptyString
  else if y <? 0 then String "-"%char (pad 6 (- y) EmptyString)
  else String "+"%char (pad 6 y EmptyString).

(** [new Date(t).toISOString()] for a valid time value [t]. *)
Definition toISOString (t : Z) : string :=
  let day := t / ms_per_day in
  let rest := t mod ms_per_day in
  let '(y, m, d) := civil_from_days day in
  year_string y ++ "-" ++ pad 2 m EmptyString ++ "-" ++ pad 2 d EmptyString ++ "T"
    ++ pad 2 (rest / ms_per_hour) EmptyString ++ ":"
    ++ pad 2 (rest mod ms_per_hour / ms_per_minute) EmptyString ++ ":"
    ++ pad 2 (rest mod ms_per_minute / 1000) EmptyString ++ "."
    ++ pad 3 (rest mod 1000) EmptyString ++ "Z".

End IsoDate.

(* ===================================================================== *)
(** ** The zod combinators used by validators.ts *)
(* ===================================================================== *)

(** A schema parses a raw value into a typed one; [None] is a parse failure
    (the [ZodError] that [.parse] throws). *)
Definition Schema (A : Type) : Type := JSValue -> option A.

Module z.

Definition string : Schema String.string :=
  fun v => match v with JStr s => Some s | _ => None end.

(** [.regex(re, msg)] on a string schema. *)
Definition regex (re : String.string -> bool) (inner : Schema String.string)
  : Schema String.string :=
  fun v => s ← inner v; if re s then Some s else None.

Definition boolean : Schema bool :=
  fun v => match v with JBool b => Some b | _ => None end.

(** [z.number()] accepts every number but NaN. *)
Definition number : Schema Z :=
  fun v => match v with
           | JNum n => if f64_isNaN n then None else Some n
           | _ => None
           end.

(** [z.enum([...])]: the literal and the typed value it stands for. *)
Fixpoint pick {A} (table : list (String.string * A)) (s : String.string) : option A :=
  match table with
  | [] => None
  | (k, a) :: rest => if String.eqb s k then Some a else pick rest s
  end.

Definition enum {A} (table : list (String.string * A)) : Schema A :=
  fun v => match v with JStr s => pick table s | _ => None end.

(** [.optional()]: [undefined] is accepted as it is. *)
Definition optional {A} (inner : Schema A) : Schema (option A) :=
  fun v => match v with
           | JUndefined => Some None
           | _ => Some <$> inner v
           end.

(** [.default(d)]: [undefined] is replaced by [d] before the inner parse. *)
Definition default {A} (inner : Schema A) (d : JSValue) : Schema A :=
  fun v => match v with
           | JUndefined => inner d
           | _ => inner v
           end.

Definition array {A} (inner : Schema A) : Schema (list A) :=
  fun v => match v with JArr l => mapM inner l | _ => None end.

(** [z.object({...})]: the input must be an object; each key of the shape
    is read from it (a missing key reads as [undefined]) and unknown keys
    are dropped. *)
Definition object {A} (shape : gmap String.string JSValue -> option A) : Schema A :=
  fun v => match v with JObj o => shape o | _ => None end.

Definition key {A} (o : gmap String.string JSValue) (k : String.string)
    (inner : Schema A) : option A :=
  inner (prop o k).

(** [.refine(check, ...)] *)
Definition refine {A} (inner : Schema A) (check : A -> bool) : Schema A :=
  fun v => a ← inner v; if check a then Some a else None.

End z.

(* ===================================================================== *)
(** ** The data of an update command *)
(* ===================================================================== *)

Inductive ModificationScope : Type := ScopeSingle | ScopeAll | ScopeFuture.
Inductive SendUpdates : Type := SendAll | SendExternalOnly | SendNone.
Inductive ReminderMethod : Type := MethodEmail | MethodPopup.

#[global] Instance ModificationScope_eq_dec : EqDecision ModificationScope.
Proof. solve_decision. Defined.
#[global] Instance SendUpdates_eq_dec : EqDecision SendUpdates.
Proof. solve_decision. Defined.

Record Reminder : Type := {
  method : ReminderMethod;
  minutes : Z;                        (* a number, as its bit pattern *)
}.

Record Reminders : Type := {
  useDefault : bool;
  overrides : option (list Reminder);
}.

Record Attendee : Type := { email : string }.

(** [z.infer<typeof UpdateEventArgumentsSchema>] *)
Module Args.
Record t : Type := {
  calendarId : string;
  eventId : string;
  summary : option string;
  description : option string;
  start : option string;
  end_ : option string;
  timeZone : string;
  attendees : option (list Attendee);
  location : option string;
  colorId : option string;
  reminders : option Reminders;
  recurrence : option (list string);
  modificationScope : ModificationScope;
  originalStartTime : option string;
  futureStartDate : option string;
  sendUpdates : option SendUpdates;
}.
End Args.

Definition ReminderSchema : Schema Reminder :=
  z.object (fun o =>
    m ← z.key o "method"
          (z.default (z.enum [("email", MethodEmail); ("popup", MethodPopup)])
                     (JStr "popup"));
    n ← z.key o "minutes" z.number;
    Some {| method := m; minutes := n |}).

Definition RemindersSchema : Schema Reminders :=
  z.object (fun o =>
    u ← z.key o "useDefault" z.boolean;
    ov ← z.key o "overrides" (z.optional (z.array ReminderSchema));
    Some {| useDefault := u; overrides := ov |}).

Definition AttendeeSchema : Schema Attendee :=
  z.object (fun o => e ← z.key o "email" z.string; Some {| email := e |}).

Definition dateTimeString : Schema string :=
  z.regex isoDateTimeWithTimezone z.string.

Definition scopeEnum : Schema ModificationScope :=
  z.enum [("single", ScopeSingle); ("all", ScopeAll); ("future", ScopeFuture)].

Definition sendUpdatesEnum : Schema SendUpdates :=
  z.enum [("all", SendAll); ("externalOnly", SendExternalOnly); ("none", SendNone)].

(** The [z.object({...})] of [UpdateEventArgumentsSchema], before the
    refinements. *)
Definition UpdateEventObject : Schema Args.t :=
  z.object (fun o =>
    calendarId ← z.key o "calendarId" z.string;
    eventId ← z.key o "eventId" z.string;
    summary ← z.key o "summary" (z.optional z.string);
    description ← z.key o "description" (z.optional z.string);
    start ← z.key o "start" (z.optional dateTimeString);
    end_ ← z.key o "end" (z.optional dateTimeString);
    timeZone ← z.key o "timeZone" z.string;
    attendees ← z.key o "attendees" (z.optional (z.array AttendeeSchema));
    location ← z.key o "location" (z.optional z.string);
    colorId ← z.key o "colorId" (z.optional z.string);
    reminders ← z.key o "reminders" (z.optional RemindersSchema);
    recurrence ← z.key o "recurrence" (z.optional (z.array z.string));
    modificationScope ← z.key o "modificationScope" (z.default scopeEnum (JStr "all"));
    originalStartTime ← z.key o "originalStartTime" (z.optional dateTimeString);
    futureStartDate ← z.key o "futureStartDate" (z.optional dateTimeString);
    sendUpdates ← z.key o "sendUpdates" (z.optional sendUpdatesEnum);
    Some {| Args.calendarId := calendarId; Args.eventId := eventId;
            Args.summary := summary; Args.description := description;
            Args.start := start; Args.end_ := end_; Args.timeZone := timeZone;
            Args.attendees := attendees; Args.location := location;
            Args.colorId := colorId; Args.reminders := reminders;
            Args.recurrence := recurrence;
            Args.modificationScope := modificationScope;
            Args.originalStartTime := originalStartTime;
            Args.futureStartDate := futureStartDate;
            Args.sendUpdates := sendUpdates |}).

(** First refinement: require originalStartTime when modificationScope is
    'single'. *)
Definition requireOriginalStartTime (data : Args.t) : bool :=
  if bool_decide (Args.modificationScope data = ScopeSingle)
     && negb (truthy_str (Args.originalStartTime data))
  then false else true.

(** Second refinement: require futureStartDate when modificationScope is
    'future'. *)
Definition requireFutureStartDate (data : Args.t) : bool :=
  if bool_decide (Args.modificationScope data = ScopeFuture)
     && negb (truthy_str (Args.futureStartDate data))
  then false else true.

Section Validation.

(** The engine's [Date.parse] ([None] for NaN) and the reading of the
    clock that [new Date()] takes during validation. *)
Variable Date_parse : string -> option Z.
Variable now : Z.

(** [new Date(a) > new Date(<now>)]: a comparison of time values, false
    when the left one is NaN. *)
Definition laterThanNow (s : string) : bool :=
  match Date_parse s with
  | Some t => now <? t
  | None => false
  end.

(** Third refinement: futureStartDate is in the future when provided. *)
Definition futureStartDateInFuture (data : Args.t) : bool :=
  if truthy_str (Args.futureStartDate data) then
    match Args.futureStartDate data with
    | Some futureStartDate => laterThanNow futureStartDate
    | None => true
    end
  else true.

Definition UpdateEventArgumentsSchema : Schema Args.t :=
  z.refine
    (z.refine
       (z.refine UpdateEventObject requireOriginalStartTime)
       requireFutureStartDate)
    futureStartDateInFuture.

End Validation.

(* ===================================================================== *)
(** ** Exceptions, service calls and asynchronous computations *)
(* ===================================================================== *)

(** The keys of [RECURRING_EVENT_ERRORS] the handler uses. *)
Inductive RECURRING_EVENT_ERRORS : Type :=
| INVALID_SCOPE
| MISSING_ORIGINAL_TIME
| MISSING_FUTURE_DATE
| NON_RECURRING_SCOPE.

Inductive Exn : Type :=
| RecurringEventError (message : string) (code : RECURRING_EVENT_ERRORS)
| Error (message : string)
| TypeError (message : string)
| ZodError
| Thrown (payload : JSValue).        (* anything else a callee throws *)

(** How a synchronous call completes. *)
Inductive Completion (A : Type) : Type :=
| Normal (a : A)
| Abrupt (e : Exn).
Arguments Normal {A} a.
Arguments Abrupt {A} e.

(** Modelled from the spec: the result type of [helpers.detectEventType],
    whose declaration (RecurringEventHelpers.ts) is missing; the EventType of §3 is a tag with
    values `single` (standalone), `recurring` (master of a series) and
    `instance` (one occurrence of a series).  The handler only ever compares
    it with the literal for `recurring`. *)
Inductive EventType : Type := TypeSingle | TypeRecurring | TypeInstance.

#[global] Instance EventType_eq_dec : EqDecision EventType.
Proof. solve_decision. Defined.

(** Parameters of [calendar.events.get]. *)
Module Get.
Record params : Type := {
  calendarId : string;
  eventId : string;
}.
End Get.

(** Parameters of [calendar.events.patch]. *)
Module Patch.
Record params : Type := {
  calendarId : string;
  eventId : string;
  requestBody : gmap string JSValue;
  sendUpdates : option SendUpdates;
}.
End Patch.

(** Parameters of [calendar.events.insert]. *)
Module Insert.
Record params : Type := {
  calendarId : string;
  requestBody : gmap string JSValue;
  sendUpdates : option SendUpdates;
}.
End Insert.

Inductive Request : Type :=
| EventsGet (p : Get.params)
| EventsPatch (p : Patch.params)
| EventsInsert (p : Insert.params).

(** The part of a service response the handler reads: [response.data]. *)
Record Response : Type := { data : option (gmap string JSValue) }.

(** Where an exception that ends a computation was raised: by the handler's
    own code, or below it (a helper or the service) and passed on. *)
Inductive Origin : Type := Here | Below.

(** An asynchronous computation: a finite tree whose inner nodes are the
    awaited calls, each with the continuation for its result and the one for
    its rejection. *)
Inductive Async (A : Type) : Type :=
| Return (a : A)
| Raise (o : Origin) (e : Exn)
| AwaitDetectEventType (eventId calendarId : string)
    (k : EventType -> Async A) (h : Exn -> Async A)
| AwaitEvents (rq : Request) (k : Response -> Async A) (h : Exn -> Async A).
Arguments Return {A} a.
Arguments Raise {A} o e.
Arguments AwaitDetectEventType {A} eventId calendarId k h.
Arguments AwaitEvents {A} rq k h.

Fixpoint bind {A B} (p : Async A) (f : A -> Async B) : Async B :=
  match p with
  | Return a => f a
  | Raise o e => Raise o e
  | AwaitDetectEventType ev cal k h =>
      AwaitDetectEventType ev cal (fun t => bind (k t) f) (fun e => bind (h e) f)
  | AwaitEvents rq k h =>
      AwaitEvents rq (fun r => bind (k r) f) (fun e => bind (h e) f)
  end.

#[global] Instance Async_mbind : MBind Async := fun A B f p => bind p f.

(** [await call] with no handler around it: a rejection ends the computation. *)
Definition await (rq : Request) : Async Response :=
  AwaitEvents rq Return (Raise Below).

(** A synchronous call of a helper: an exception it throws passes through. *)
Definition sync {A} (c : Completion A) : Async A :=
  match c with
  | Normal a => Return a
  | Abrupt e => Raise Below e
  end.

(** One entry of the record of calls issued, with the answer received. *)
Inductive Entry : Type :=
| Detected (eventId calendarId : string) (answer : Completion EventType)
| Called (rq : Request) (answer : Completion Response).

(** The calendar service seen from the handler: its answer to a call may
    depend on everything issued before. *)
Record Service : Type := {
  detect : list Entry -> string -> string -> Completion EventType;
  respond : list Entry -> Request -> Completion Response;
}.

Inductive Outcome (A : Type) : Type :=
| Returned (a : A)
| Raised (o : Origin) (e : Exn).
Arguments Returned {A} a.
Arguments Raised {A} o e.

(** Running a computation against a service, from a given record of calls. *)
Fixpoint run {A} (p : Async A) (svc : Service) (log : list Entry)
  : Outcome A * list Entry :=
  match p with
  | Return a => (Returned a, log)
  | Raise o e => (Raised o e, log)
  | AwaitDetectEventType ev cal k h =>
      let answer := detect svc log ev cal in
      let log' := (log ++ [Detected ev cal answer])%list in
      match answer with
      | Normal t => run (k t) svc log'
      | Abrupt e => run (h e) svc log'
      end
  | AwaitEvents rq k h =>
      let answer := respond svc log rq in
      let log' := (log ++ [Called rq answer])%list in
      match answer with
      | Normal r => run (k r) svc log'
      | Abrupt e => run (h e) svc log'
      end
  end.

(** The [sendUpdates] parameter a request carries, if it has one. *)
Definition carriedSendUpdates (rq : Request) : option (option SendUpdates) :=
  match rq with
  | EventsGet _ => None
  | EventsPatch p => Some (Patch.sendUpdates p)
  | EventsInsert p => Some (Insert.sendUpdates p)
  end.

(** The requests of a record of calls, in the order issued. *)
Fixpoint requests (log : list Entry) : list Request :=
  match log with
  | [] => []
  | Detected _ _ _ :: rest => requests rest
  | Called rq _ :: rest => rq :: requests rest
  end.

(** Partial update on the side of the calendar service (the external
    collaborator of §6): the properties of the request body replace those of
    the stored event, the others stay. *)
Definition applyPatch (stored body : gmap string JSValue) : gmap string JSValue :=
  body ∪ stored.

(* ===================================================================== *)
(** ** The handler: UpdateEventHandler.ts *)
(* ===================================================================== *)

(** The synchronous methods of [RecurringEventHelpers] the handler calls.
    Their bodies are in RecurringEventHelpers.ts, which is not embedded, so
    the handler is modelled for any implementation of them, including ones
    that throw. *)
Record RecurringEventHelpers : Type := {
  formatInstanceId : string -> string -> Completion string;
  buildUpdateRequestBody : Args.t -> Completion (gmap string JSValue);
  calculateUntilDate : string -> Completion string;
  updateRecurrenceWithUntil : JSValue -> string -> Completion JSValue;
  calculateEndTime : string -> gmap string JSValue -> Completion string;
  cleanEventForDuplication : gmap string JSValue -> Completion (gmap string JSValue);
}.

(** The double-quote character, for messages that contain it. *)
Definition dquote : string := String (ascii_of_nat 34) EmptyString.

(** A property that passed a truthiness test, at its narrowed type. *)
Definition narrowed (o : option string) : string := default EmptyString o.

(** [a || b] where [b] is a string. *)
Definition or_else (a : option string) (b : string) : string :=
  if truthy_str a then narrowed a else b.

(** The object literal [{ dateTime: d, timeZone: tz }]. *)
Definition timePoint (d : JSValue) (tz : string) : JSValue :=
  JObj (<["dateTime" := d]> (<["timeZone" := JStr tz]> ∅)).

Definition updateSingleInstance (helpers : RecurringEventHelpers) (args : Args.t)
  : Async (gmap string JSValue) :=
  if negb (truthy_str (Args.originalStartTime args)) then
    Raise Here (RecurringEventError
                  "originalStartTime is required for single instance updates"
                  MISSING_ORIGINAL_TIME)
  else
    let originalStartTime := narrowed (Args.originalStartTime args) in
    instanceId ← sync (formatInstanceId helpers (Args.eventId args) originalStartTime);
    body ← sync (buildUpdateRequestBody helpers args);
    response ← await (EventsPatch {|
      Patch.calendarId := Args.calendarId args;
      Patch.eventId := instanceId;
      Patch.requestBody := body;
      Patch.sendUpdates := Args.sendUpdates args |});
    match data response with
    | None => Raise Here (Error "Failed to update event instance")
    | Some d => Return d
    end.

Definition updateAllInstances (helpers : RecurringEventHelpers) (args : Args.t)
  : Async (gmap string JSValue) :=
  body ← sync (buildUpdateRequestBody helpers args);
  response ← await (EventsPatch {|
    Patch.calendarId := Args.calendarId args;
    Patch.eventId := Args.eventId args;
    Patch.requestBody := body;
    Patch.sendUpdates := Args.sendUpdates args |});
  match data response with
  | None => Raise Here (Error "Failed to update event")
  | Some d => Return d
  end.

(** Step 3 of the split: the body of the event that is inserted. *)
Definition newEventBody (cleaned requestBody : gmap string JSValue)
    (startTime : string) (endTime : option string) (timeZone : string)
  : gmap string JSValue :=
  <["end" := timePoint (of_opt_string endTime) timeZone]>
    (<["start" := timePoint (JStr startTime) timeZone]>
       (requestBody ∪ cleaned)).

Definition updateFutureInstances (helpers : RecurringEventHelpers) (args : Args.t)
  : Async (gmap string JSValue) :=
  if negb (truthy_str (Args.futureStartDate args)) then
    Raise Here (RecurringEventError
                  "futureStartDate is required for future instance updates"
                  MISSING_FUTURE_DATE)
  else
    let futureStartDate := narrowed (Args.futureStartDate args) in
    (* 1. Get original event *)
    originalResponse ← await (EventsGet {|
      Get.calendarId := Args.calendarId args;
      Get.eventId := Args.eventId args |});
    match data originalResponse with
    | None =>
        Raise Here (TypeError "Cannot read properties of undefined (reading 'recurrence')")
    | Some originalEvent =>
        if negb (truthy (prop originalEvent "recurrence")) then
          Raise Here (Error "Event does not have recurrence rules")
        else
          (* 2. Calculate UNTIL date and update original event *)
          untilDate ← sync (calculateUntilDate helpers futureStartDate);
          updatedRecurrence ←
            sync (updateRecurrenceWithUntil helpers
                    (prop originalEvent "recurrence") untilDate);
          _ ← await (EventsPatch {|
            Patch.calendarId := Args.calendarId args;
            Patch.eventId := Args.eventId args;
            Patch.requestBody := {["recurrence" := updatedRecurrence]};
            Patch.sendUpdates := Args.sendUpdates args |});
          (* 3. Create new recurring event starting from future date *)
          requestBody ← sync (buildUpdateRequestBody helpers args);
          endTime ←
            (if truthy (JStr (or_else (Args.start args) futureStartDate)) then
               let newStartTime := or_else (Args.start args) futureStartDate in
               if truthy_str (Args.end_ args) then Return (Args.end_ args)
               else
                 projected ← sync (calculateEndTime helpers newStartTime originalEvent);
                 Return (Some projected)
             else Return (Args.end_ args));
          cleaned ← sync (cleanEventForDuplication helpers originalEvent);
          response ← await (EventsInsert {|
            Insert.calendarId := Args.calendarId args;
            Insert.requestBody :=
              newEventBody cleaned requestBody
                (or_else (Args.start args) futureStartDate) endTime
                (Args.timeZone args);
            Insert.sendUpdates := Args.sendUpdates args |});
          match data response with
          | None => Raise Here (Error "Failed to create new recurring event")
          | Some d => Return d
          end
    end.

Record ContentItem : Type := { type_ : string; text : string }.
Record CallToolResult : Type := { content : list ContentItem }.

Section Handler.

(** [BaseToolHandler.handleGoogleApiError]: the exception that leaves the
    catch clause for an exception that is not a [RecurringEventError]. *)
Variable handleGoogleApiError : Exn -> Exn.

(** The catch clause of [updateEventWithScope]. *)
Definition catchClause {A} (o : Origin) (error : Exn) : Async A :=
  match error with
  | RecurringEventError _ _ => Raise o error
  | _ => Raise o (handleGoogleApiError error)
  end.

(** The scope test of [updateEventWithScope]. *)
Definition scopeMismatch (scope : ModificationScope) (eventType : EventType) : bool :=
  negb (bool_decide (scope = ScopeAll))
  && negb (bool_decide (eventType = TypeRecurring)).

(** The [try] block awaits the classification and performs the scope test;
    the promise of the selected strategy is returned without being awaited,
    so that the catch clause does not see its rejection.  The [default] arm of
    the switch has no counterpart: the scope is one of three literals. *)
Definition updateEventWithScope (helpers : RecurringEventHelpers) (args : Args.t)
  : Async (gmap string JSValue) :=
  AwaitDetectEventType (Args.eventId args) (Args.calendarId args)
    (fun eventType =>
       if scopeMismatch (Args.modificationScope args) eventType then
         catchClause Here
           (RecurringEventError
              ("Scope other than " ++ dquote ++ "all" ++ dquote
                 ++ " only applies to recurring events")
              NON_RECURRING_SCOPE)
       else
         match Args.modificationScope args with
         | ScopeSingle => updateSingleInstance helpers args
         | ScopeAll => updateAllInstances helpers args
         | ScopeFuture => updateFutureInstances helpers args
         end)
    (catchClause Below).

(** The engine's [Date.parse], the clock at validation, and the conversion
    of a value inside a template literal. *)
Variable Date_parse : string -> option Z.
Variable now : Z.
Variable ToString : JSValue -> string.

Definition runTool (helpers : RecurringEventHelpers) (args : JSValue)
  : Async CallToolResult :=
  match UpdateEventArgumentsSchema Date_parse now args with
  | None => Raise Here ZodError
  | Some validArgs =>
      event ← updateEventWithScope helpers validArgs;
      Return {| content := [ {|
        type_ := "text";
        text := "Event updated: " ++ ToString (prop event "summary")
                  ++ " (" ++ ToString (prop event "id") ++ ")" |} ] |}
  end.

End Handler.

(* ===================================================================== *)
(** ** The end-time projection *)
(* ===================================================================== *)

Section Projection.

Variable Date_parse : string -> option Z.
Variable Date_toISOString : Z -> string.

(** Modelled from the spec: the time bounds of an Event (§3), read as the
    [dateTime] of the time point stored under [k]; part of the model of
    [RecurringEventHelpers.calculateEndTime], whose source is missing. *)
Definition dateTimeOf (event : gmap string JSValue) (k : string) : option string :=
  match prop event k with
  | JObj o => match prop o "dateTime" with JStr s => Some s | _ => None end
  | _ => None
  end.

(** Modelled from the spec: [estimateDuration] of §4.4, whose code
    ([RecurringEventHelpers.calculateEndTime]) is missing: the duration is
    the original event's (end − start). *)
Definition estimateDuration (originalEvent : gmap string JSValue) : option Z :=
  s ← dateTimeOf originalEvent "start" ≫= Date_parse;
  e ← dateTimeOf originalEvent "end" ≫= Date_parse;
  Some (e - s).

(** Modelled from the spec: [projectEnd] of §4.4, whose code
    ([RecurringEventHelpers.calculateEndTime]) is missing: the projected end
    is newStart + duration. *)
Definition projectEnd (newStart duration : Z) : Z := newStart + duration.

(** Modelled from the spec: [RecurringEventHelpers.calculateEndTime], whose
    source is missing, as the composition of the two operations of §4.4; it
    fails where a time cannot be read. *)
Definition calculateEndTimeSpec (newStartTime : string)
    (originalEvent : gmap string JSValue) : Completion string :=
  match Date_parse newStartTime, estimateDuration originalEvent with
  | Some newStart, Some duration =>
      Normal (Date_toISOString (projectEnd newStart duration))
  | _, _ => Abrupt (Thrown (JStr "RangeError: Invalid time value"))
  end.

End Projection.

(* ===================================================================== *)
(** ** Worked data: commands, helpers and services to run the model on *)
(* ===================================================================== *)

Module Demo.

(** 2026-11-03T00:00:00Z *)
Definition now : Z := 1793664000000.

Definition base : list (string * JSValue) :=
  [("calendarId", JStr "primary"); ("eventId", JStr "E1");
   ("timeZone", JStr "America/Los_Angeles")].

Definition objAll : gmap string JSValue :=
  (list_to_map (("summary", JStr "Standup") :: ("sendUpdates", JStr "none") :: base)).

Definition objSingle : gmap string JSValue :=
  (list_to_map (("modificationScope", JStr "single")
                       :: ("originalStartTime", JStr "2030-08-15T10:00:00-07:00")
                       :: base)).

Definition objSingleNoOriginal : gmap string JSValue :=
  (list_to_map (("modificationScope", JStr "single") :: base)).

Definition objSinglePastFuture : gmap string JSValue :=
  (list_to_map (("modificationScope", JStr "single")
                       :: ("originalStartTime", JStr "2030-08-15T10:00:00-07:00")
                       :: ("futureStartDate", JStr "2000-01-01T00:00:00Z")
                       :: base)).

Definition objFuture : gmap string JSValue :=
  (list_to_map (("modificationScope", JStr "future")
                       :: ("futureStartDate", JStr "2030-09-01T09:00:00-07:00")
                       :: ("sendUpdates", JStr "none")
                       :: base)).

Definition objFuturePast : gmap string JSValue :=
  (list_to_map (("modificationScope", JStr "future")
                       :: ("futureStartDate", JStr "2000-01-01T00:00:00Z")
                       :: base)).

Definition objAllPastFuture : gmap string JSValue :=
  (list_to_map (("futureStartDate", JStr "2000-01-01T00:00:00Z") :: base)).

Definition args (scope : ModificationScope) (start originalStartTime futureStartDate : option string)
    (sendUpdates : option SendUpdates) : Args.t :=
  {| Args.calendarId := "primary"; Args.eventId := "E1";
     Args.summary := None; Args.description := None;
     Args.start := start; Args.end_ := None;
     Args.timeZone := "America/Los_Angeles";
     Args.attendees := None; Args.location := None; Args.colorId := None;
     Args.reminders := None; Args.recurrence := None;
     Args.modificationScope := scope;
     Args.originalStartTime := originalStartTime;
     Args.futureStartDate := futureStartDate;
     Args.sendUpdates := sendUpdates |}.

Definition argsSingle : Args.t :=
  args ScopeSingle None (Some "2030-08-15T10:00:00-07:00") None None.

Definition argsFuture : Args.t :=
  args ScopeFuture None None (Some "2030-09-01T09:00:00-07:00") (Some SendNone).

(** A split that also moves the start of the new series. *)
Definition argsFutureMoved : Args.t :=
  args ScopeFuture (Some "2030-09-02T10:00:00-07:00") None
       (Some "2030-09-01T09:00:00-07:00") (Some SendNone).

Definition argsAll : Args.t :=
  {| Args.calendarId := "primary"; Args.eventId := "E1";
     Args.summary := Some "Standup"; Args.description := None;
     Args.start := None; Args.end_ := None;
     Args.timeZone := "America/Los_Angeles";
     Args.attendees := None; Args.location := None; Args.colorId := None;
     Args.reminders := None; Args.recurrence := None;
     Args.modificationScope := ScopeAll;
     Args.originalStartTime := None;
     Args.futureStartDate := None;
     Args.sendUpdates := Some SendNone |}.

(** The stored series the services below answer with. *)
Definition original : gmap string JSValue :=
  list_to_map
    [("id", JStr "E1"); ("summary", JStr "Standup");
     ("recurrence", JArr [JStr "RRULE:FREQ=WEEKLY;COUNT=20"]);
     ("start", timePoint (JStr "2024-01-01T09:00:00-08:00") "America/Los_Angeles");
     ("end", timePoint (JStr "2024-01-01T09:30:00-08:00") "America/Los_Angeles")].

(** One implementation of the helpers, with the end-time projection of the
    spec on the reference dates. *)
Definition helpers : RecurringEventHelpers :=
  {| formatInstanceId := fun eventId t => Normal (eventId ++ "_" ++ t);
     buildUpdateRequestBody := fun a =>
       Normal (match Args.summary a with
               | Some s => {["summary" := JStr s]}
               | None => ∅
               end);
     calculateUntilDate := fun t => Normal t;
     updateRecurrenceWithUntil := fun _ until =>
       Normal (JArr [JStr ("RRULE:FREQ=WEEKLY;UNTIL=" ++ until)]);
     calculateEndTime := calculateEndTimeSpec IsoDate.parse IsoDate.toISOString;
     cleanEventForDuplication := fun ev => Normal (delete "id" ev) |}.

Definition answer (onInsert : Insert.params -> Completion Response) (rq : Request)
  : Completion Response :=
  match rq with
  | EventsGet _ => Normal {| data := Some original |}
  | EventsPatch p => Normal {| data := Some (applyPatch original (Patch.requestBody p)) |}
  | EventsInsert p => onInsert p
  end.

(** A service holding [original], classified as [t], that accepts every call. *)
Definition service (t : EventType) : Service :=
  {| detect := fun _ _ _ => Normal t;
     respond := fun _ =>
       answer (fun p => Normal {| data := Some (<["id" := JStr "E2"]> (Insert.requestBody p)) |}) |}.

(** The same service, except that it rejects every insertion. *)
Definition serviceRejectingInsert : Service :=
  {| detect := fun _ _ _ => Normal TypeRecurring;
     respond := fun _ => answer (fun _ => Abrupt (Thrown (JStr "503"))) |}.

Definition handleGoogleApiError (e : Exn) : Exn := e.

Definition toString (v : JSValue) : string :=
  match v with
  | JStr s => s
  | JUndefined => "undefined"
  | JNull => "null"
  | JBool true => "true"
  | JBool false => "false"
  | _ => "[object Object]"
  end.

(** The raw form of [argsFutureMoved]. *)
Definition objFutureMoved : gmap string JSValue :=
  (list_to_map (("modificationScope", JStr "future")
                  :: ("start", JStr "2030-09-02T10:00:00-07:00")
                  :: ("futureStartDate", JStr "2030-09-01T09:00:00-07:00")
                  :: ("sendUpdates", JStr "none")
                  :: base)).

(** The requests a split of [original] at 2030-09-01T09:00:00-07:00 sends. *)
Definition fetch : Get.params :=
  {| Get.calendarId := "primary"; Get.eventId := "E1" |}.

Definition truncation : Patch.params :=
  {| Patch.calendarId := "primary"; Patch.eventId := "E1";
     Patch.requestBody :=
       {["recurrence" :=
           JArr [JStr "RRULE:FREQ=WEEKLY;UNTIL=2030-09-01T09:00:00-07:00"]]};
     Patch.sendUpdates := Some SendNone |}.

Definition insertion (startTime endTime : string) : Insert.params :=
  {| Insert.calendarId := "primary";
     Insert.requestBody :=
       newEventBody (delete "id" original) ∅ startTime (Some endTime)
                    "America/Los_Angeles";
     Insert.sendUpdates := Some SendNone |}.

Definition accepted (p : Insert.params) : Completion Response :=
  Normal {| data := Some (<["id" := JStr "E2"]> (Insert.requestBody p)) |}.

End Demo.

(* ===================================================================== *)
(** ** The other schemas of validators.ts *)
(* ===================================================================== *)

(** The further zod combinators these schemas use. *)
Module zod.

(** [.min(1, msg)] on a string schema: at least one character. *)
Definition nonempty (inner : Schema string) : Schema string :=
  fun v => s ← inner v; if string_nonempty s then Some s else None.

(** [z.union([a, b])]: the first option that parses. *)
Definition union {A B} (a : Schema A) (b : Schema B) : Schema (A + B) :=
  fun v => match a v with
           | Some x => Some (inl x)
           | None => inr <$> b v
           end.

(** [z.preprocess(f, inner)] *)
Definition preprocess {A} (f : JSValue -> JSValue) (inner : Schema A) : Schema A :=
  fun v => inner (f v).

(** [.min(lo).max(hi)] on an array schema. *)
Definition sized {A} (lo hi : nat) (inner : Schema (list A)) : Schema (list A) :=
  fun v => l ← inner v;
           if (lo <=? length l)%nat && (length l <=? hi)%nat then Some l else None.

End zod.

(** [val.startsWith("[")] and [val.endsWith("]")] *)
Definition startsWith (c : ascii) (s : string) : bool :=
  match s with
  | String d _ => Ascii.eqb d c
  | EmptyString => false
  end.

Fixpoint endsWith (c : ascii) (s : string) : bool :=
  match s with
  | EmptyString => false
  | String d EmptyString => Ascii.eqb d c
  | String _ rest => endsWith c rest
  end.

(** [new Set(ids).size === ids.length] *)
Definition allDistinct (ids : list string) : bool :=
  (length (remove_dups ids) =? length ids)%nat.

(** [z.infer<typeof ListEventsArgumentsSchema>] *)
Module ListArgs.
Record t : Type := {
  calendarId : string + list string;
  timeMin : option string;
  timeMax : option string;
}.
End ListArgs.

Section ListEvents.

(** The engine's [JSON.parse] ([None] when it throws) and [Date.parse]. *)
Variable JSON_parse : string -> option JSValue.
Variable Date_parse : string -> option Z.

(** The function given to [z.preprocess] for calendarId: a string that
    looks like a JSON array is replaced by what it parses to, and kept as it
    is when parsing fails. *)
Definition calendarIdPreprocess (val : JSValue) : JSValue :=
  match val with
  | JStr s =>
      if startsWith "["%char s && endsWith "]"%char s then
        match JSON_parse s with
        | Some parsed => parsed
        | None => val
        end
      else val
  | _ => val
  end.

Definition calendarIdSchema : Schema (string + list string) :=
  zod.preprocess calendarIdPreprocess
    (zod.union
       (zod.nonempty z.string)
       (z.refine (zod.sized 1 50 (z.array (zod.nonempty z.string))) allDistinct)).

(** [new Date(a) < new Date(b)], false when either is NaN. *)
Definition dateBefore (a b : string) : bool :=
  match Date_parse a, Date_parse b with
  | Some x, Some y => x <? y
  | _, _ => false
  end.

(** The refinement of the list schema: timeMin must be before timeMax. *)
Definition timeMinBeforeTimeMax (data : ListArgs.t) : bool :=
  if truthy_str (ListArgs.timeMin data) && truthy_str (ListArgs.timeMax data) then
    dateBefore (narrowed (ListArgs.timeMin data)) (narrowed (ListArgs.timeMax data))
  else true.

Definition ListEventsObject : Schema ListArgs.t :=
  z.object (fun o =>
    calendarId ← z.key o "calendarId" calendarIdSchema;
    timeMin ← z.key o "timeMin" (z.optional dateTimeString);
    timeMax ← z.key o "timeMax" (z.optional dateTimeString);
    Some {| ListArgs.calendarId := calendarId;
            ListArgs.timeMin := timeMin;
            ListArgs.timeMax := timeMax |}).

Definition ListEventsArgumentsSchema : Schema ListArgs.t :=
  z.refine ListEventsObject timeMinBeforeTimeMax.

End ListEvents.

(** [z.infer<typeof SearchEventsArgumentsSchema>] *)
Module SearchArgs.
Record t : Type := {
  calendarId : string;
  query : string;
  timeMin : option string;
  timeMax : option string;
}.
End SearchArgs.

Definition SearchEventsArgumentsSchema : Schema SearchArgs.t :=
  z.object (fun o =>
    calendarId ← z.key o "calendarId" z.string;
    query ← z.key o "query" z.string;
    timeMin ← z.key o "timeMin" (z.optional dateTimeString);
    timeMax ← z.key o "timeMax" (z.optional dateTimeString);
    Some {| SearchArgs.calendarId := calendarId; SearchArgs.query := query;
            SearchArgs.timeMin := timeMin; SearchArgs.timeMax := timeMax |}).

(** [z.infer<typeof CreateEventArgumentsSchema>] *)
Module CreateArgs.
Record t : Type := {
  calendarId : string;
  summary : string;
  description : option string;
  start : string;
  end_ : string;
  timeZone : string;
  attendees : option (list Attendee);
  location : option string;
  colorId : option string;
  reminders : option Reminders;
  recurrence : option (list string);
  sendUpdates : option SendUpdates;
}.
End CreateArgs.

Definition CreateEventArgumentsSchema : Schema CreateArgs.t :=
  z.object (fun o =>
    calendarId ← z.key o "calendarId" z.string;
    summary ← z.key o "summary" z.string;
    description ← z.key o "description" (z.optional z.string);
    start ← z.key o "start" dateTimeString;
    end_ ← z.key o "end" dateTimeString;
    timeZone ← z.key o "timeZone" z.string;
    attendees ← z.key o "attendees" (z.optional (z.array AttendeeSchema));
    location ← z.key o "location" (z.optional z.string);
    colorId ← z.key o "colorId" (z.optional z.string);
    reminders ← z.key o "reminders" (z.optional RemindersSchema);
    recurrence ← z.key o "recurrence" (z.optional (z.array z.string));
    sendUpdates ← z.key o "sendUpdates" (z.optional sendUpdatesEnum);
    Some {| CreateArgs.calendarId := calendarId; CreateArgs.summary := summary;
            CreateArgs.description := description;
            CreateArgs.start := start; CreateArgs.end_ := end_;
            CreateArgs.timeZone := timeZone; CreateArgs.attendees := attendees;
            CreateArgs.location := location; CreateArgs.colorId := colorId;
            CreateArgs.reminders := reminders;
            CreateArgs.recurrence := recurrence;
            CreateArgs.sendUpdates := sendUpdates |}).

(** [z.infer<typeof DeleteEventArgumentsSchema>] *)
Module DeleteArgs.
Record t : Type := {
  calendarId : string;
  eventId : string;
  sendUpdates : option SendUpdates;
}.
End DeleteArgs.

Definition DeleteEventArgumentsSchema : Schema DeleteArgs.t :=
  z.object (fun o =>
    calendarId ← z.key o "calendarId" z.string;
    eventId ← z.key o "eventId" z.string;
    sendUpdates ← z.key o "sendUpdates" (z.optional sendUpdatesEnum);
    Some {| DeleteArgs.calendarId := calendarId; DeleteArgs.eventId := eventId;
            DeleteArgs.sendUpdates := sendUpdates |}).

(* ===================================================================== *)
(** ** The event list formatter *)
(* ===================================================================== *)

(** The part of [calendar_v3.Schema$Event] that [formatEventList] reads.  A
    property typed [string | null | undefined] is an optional string: the
    formatter only tests it for truthiness.  The two properties of a reminder
    are printed as they are, so they stay plain values. *)
Module Cal.

Record EventAttendee : Type := {
  email : option string;
  responseStatus : option string;
}.

Record EventReminder : Type := {
  method : JSValue;
  minutes : JSValue;
}.

Record EventReminders : Type := {
  useDefault : option bool;
  overrides : option (list EventReminder);
}.

Record EntryPoint : Type := {
  entryPointType : option string;
  uri : option string;
}.

Record ConferenceData : Type := {
  entryPoints : option (list EntryPoint);
}.

Record EventDateTime : Type := {
  dateTime : option string;
  date : option string;
}.

Record Event : Type := {
  id : option string;
  summary : option string;
  location : option string;
  description : option string;
  colorId : option string;
  start : option EventDateTime;
  end_ : option EventDateTime;
  attendees : option (list EventAttendee);
  reminders : option EventReminders;
  conferenceData : option ConferenceData;
}.

End Cal.

(** The line feed of the template literals. *)
Definition nl : string := String (ascii_of_nat 10) EmptyString.

Section Formatter.

(** The conversion of a value inside a template literal. *)
Variable ToString : JSValue -> string.

(** [`${a.email || "no-email"} (${a.responseStatus || "unknown"})`] *)
Definition formatAttendee (a : Cal.EventAttendee) : string :=
  or_else (Cal.email a) "no-email" ++ " ("
    ++ or_else (Cal.responseStatus a) "unknown" ++ ")".

Definition attendeeList (event : Cal.Event) : string :=
  match Cal.attendees event with
  | Some attendees =>
      nl ++ "Attendees: " ++ String.concat ", " (map formatAttendee attendees)
  | None => EmptyString
  end.

(** [label] and the property, when the property is truthy. *)
Definition optionalLine (label : string) (property : option string) : string :=
  if truthy_str property then nl ++ label ++ narrowed property else EmptyString.

(** [`${r.method} ${r.minutes} minutes before`] *)
Definition formatReminder (r : Cal.EventReminder) : string :=
  ToString (Cal.method r) ++ " " ++ ToString (Cal.minutes r) ++ " minutes before".

Definition reminderInfo (event : Cal.Event) : string :=
  match Cal.reminders event with
  | Some reminders =>
      nl ++ "Reminders: "
        ++ (if default false (Cal.useDefault reminders) then "Using default"
            else
              let joined :=
                String.concat ", "
                  (map formatReminder (default [] (Cal.overrides reminders))) in
              if string_nonempty joined then joined else "None")
  | None => EmptyString
  end.

(** [event.conferenceData?.entryPoints?.find(ep => ep.entryPointType === 'video')?.uri] *)
Definition videoUri (event : Cal.Event) : option string :=
  entryPoints ← (Cal.conferenceData event ≫= Cal.entryPoints);
  ep ← List.find (fun ep => bool_decide (Cal.entryPointType ep = Some "video"))
                 entryPoints;
  Cal.uri ep.

Definition meetLink (event : Cal.Event) : string :=
  if truthy_str (videoUri event)
  then nl ++ "Google Meet: " ++ narrowed (videoUri event)
  else EmptyString.

(** [t?.dateTime || t?.date || "unspecified"] *)
Definition timeText (t : option Cal.EventDateTime) : string :=
  or_else (js_or (t ≫= Cal.dateTime) (t ≫= Cal.date)) "unspecified".

(** The callback of [events.map]. *)
Definition formatEvent (event : Cal.Event) : string :=
  or_else (Cal.summary event) "Untitled" ++ " ("
    ++ or_else (Cal.id event) "no-id" ++ ")"
    ++ optionalLine "Location: " (Cal.location event)
    ++ optionalLine "Description: " (Cal.description event)
    ++ nl ++ "Start: " ++ timeText (Cal.start event)
    ++ nl ++ "End: " ++ timeText (Cal.end_ event)
    ++ attendeeList event
    ++ optionalLine "Color ID: " (Cal.colorId event)
    ++ reminderInfo event
    ++ meetLink event
    ++ nl.

Definition formatEventList (events : list Cal.Event) : string :=
  String.concat nl (map formatEvent events).

End Formatter.

(** The delegate kept for backward compatibility. *)
Definition updateEvent (handleGoogleApiError : Exn -> Exn)
    (helpers : RecurringEventHelpers) (args : Args.t)
  : Async (gmap string JSValue) :=
  updateEventWithScope handleGoogleApiError helpers args.

(** Exchanging two properties of an object. *)
Definition swapped (k1 k2 : string) (o : gmap string JSValue) : gmap string JSValue :=
  <[k1 := prop o k2]> (<[k2 := prop o k1]> o).

(** The helpers with another implementation of [calculateEndTime]. *)
Definition withCalculateEndTime (helpers : RecurringEventHelpers)
    (f : string -> gmap string JSValue -> Completion string) : RecurringEventHelpers :=
  {| formatInstanceId := formatInstanceId helpers;
     buildUpdateRequestBody := buildUpdateRequestBody helpers;
     calculateUntilDate := calculateUntilDate helpers;
     updateRecurrenceWithUntil := updateRecurrenceWithUntil helpers;
     calculateEndTime := f;
     cleanEventForDuplication := cleanEventForDuplication helpers |}.

(* ===================================================================== *)
(** ** More worked data *)
(* ===================================================================== *)

Module Sample.

(** [JSON.parse] on the few texts used below; it throws on anything else. *)
Definition jsonParse (s : string) : option JSValue :=
  if String.eqb s "[]" then Some (JArr [])
  else if String.eqb s "[1]" then Some (JArr [JNum 4607182418800017408])
  else None.

Definition listObject (calendarId : JSValue) (timeMin timeMax : JSValue)
  : gmap string JSValue :=
  list_to_map [("calendarId", calendarId); ("timeMin", timeMin); ("timeMax", timeMax)].

Definition createObject (start end_ : string) : gmap string JSValue :=
  list_to_map [("calendarId", JStr "primary"); ("summary", JStr "Standup");
               ("start", JStr start); ("end", JStr end_);
               ("timeZone", JStr "America/Los_Angeles")].

Definition createArgs (start end_ : string) : CreateArgs.t :=
  {| CreateArgs.calendarId := "primary"; CreateArgs.summary := "Standup";
     CreateArgs.description := None;
     CreateArgs.start := start; CreateArgs.end_ := end_;
     CreateArgs.timeZone := "America/Los_Angeles";
     CreateArgs.attendees := None; CreateArgs.location := None;
     CreateArgs.colorId := None; CreateArgs.reminders := None;
     CreateArgs.recurrence := None; CreateArgs.sendUpdates := None |}.

Definition toString (v : JSValue) : string :=
  match v with
  | JStr s => s
  | JUndefined => "undefined"
  | JNull => "null"
  | JBool true => "true"
  | JBool false => "false"
  | JNum _ => "10"
  | _ => "[object Object]"
  end.

Definition bare : Cal.Event :=
  {| Cal.id := None; Cal.summary := None; Cal.location := None;
     Cal.description := None; Cal.colorId := None; Cal.start := None;
     Cal.end_ := None; Cal.attendees := None; Cal.reminders := None;
     Cal.conferenceData := None |}.

Definition withReminders (r : Cal.EventReminders) : Cal.Event :=
  {| Cal.id := Some "E1"; Cal.summary := Some "Standup"; Cal.location := None;
     Cal.description := None; Cal.colorId := None; Cal.start := None;
     Cal.end_ := None; Cal.attendees := None; Cal.reminders := Some r;
     Cal.conferenceData := None |}.

Definition withEntryPoints (eps : list Cal.EntryPoint) : Cal.Event :=
  {| Cal.id := Some "E1"; Cal.summary := Some "Standup"; Cal.location := None;
     Cal.description := None; Cal.colorId := None; Cal.start := None;
     Cal.end_ := None; Cal.attendees := None; Cal.reminders := None;
     Cal.conferenceData := Some {| Cal.entryPoints := Some eps |} |}.

(** A stored event without repeat rules, and one whose rule list is empty. *)
Definition standalone : gmap string JSValue :=
  delete "recurrence" Demo.original.

Definition emptyRules : gmap string JSValue :=
  <["recurrence" := JArr []]> Demo.original.

(** A service that holds [stored] and accepts every call. *)
Definition serviceHolding (stored : gmap string JSValue) : Service :=
  {| detect := fun _ _ _ => Normal TypeRecurring;
     respond := fun _ rq =>
       match rq with
       | EventsGet _ => Normal {| data := Some stored |}
       | EventsPatch p => Normal {| data := Some (applyPatch stored (Patch.requestBody p)) |}
       | EventsInsert p => Normal {| data := Some (Insert.requestBody p) |}
       end |}.

(** A service that rejects every patch, and one whose classification fails. *)
Definition serviceRejectingPatch : Service :=
  {| detect := fun _ _ _ => Normal TypeRecurring;
     respond := fun _ rq =>
       match rq with
       | EventsPatch _ => Abrupt (Thrown (JStr "403"))
       | _ => Normal {| data := Some Demo.original |}
       end |}.

Definition serviceNotFound : Service :=
  {| detect := fun _ _ _ => Abrupt (Thrown (JStr "404"));
     respond := fun _ _ => Abrupt (Thrown (JStr "404")) |}.

Definition searchObject (timeMin timeMax : string) : gmap string JSValue :=
  list_to_map [("calendarId", JStr "primary"); ("query", JStr "standup");
               ("timeMin", JStr timeMin); ("timeMax", JStr timeMax)].

(** An error mapping that is not the identity. *)
Definition wrap (e : Exn) : Exn := Error "Google API Error".

(** The helpers of [Demo], except that building the request body throws. *)
Definition helpersFailingBody : RecurringEventHelpers :=
  {| formatInstanceId := formatInstanceId Demo.helpers;
     buildUpdateRequestBody := fun _ => Abrupt (Error "cannot build");
     calculateUntilDate := calculateUntilDate Demo.helpers;
     updateRecurrenceWithUntil := updateRecurrenceWithUntil Demo.helpers;
     calculateEndTime := calculateEndTime Demo.helpers;
     cleanEventForDuplication := cleanEventForDuplication Demo.helpers |}.

End Sample.

(* ===================================================================== *)
(** ** Tactics *)
(* ===================================================================== *)

(** One step of a run: evaluate what is known, then split on the next
    helper completion, service answer or test. *)
Ltac run_eval :=
  cbn [run bind mbind Async_mbind sync await catchClause fst snd app requests
       Patch.sendUpdates Insert.sendUpdates Patch.requestBody Insert.requestBody
       Patch.eventId Patch.calendarId Insert.calendarId carriedSendUpdates] in *.

Ltac run_split :=
  match goal with
  | |- context [run (mbind _ (sync ?c)) _ _] => destruct c eqn:?
  | |- context [run (mbind _ (mbind _ (sync ?c))) _ _] => destruct c eqn:?
  | |- context [run (catchClause _ _ ?e) _ _] => is_var e; destruct e
  | |- context [match ?c with Normal _ => _ | Abrupt _ => _ end] =>
      destruct c eqn:?
  | |- context [match data ?r with Some _ => _ | None => _ end] =>
      destruct (data r) eqn:?
  | |- context [if ?b then _ else _] => destruct b eqn:?
  | |- context [sync ?c] => destruct c eqn:?
  | |- context [catchClause _ _ ?e] => is_var e; destruct e
  end.

Ltac run_cases := run_eval; repeat (run_split; run_eval).

(** Membership in a list that evaluates to an explicit one. *)
Ltac in_list := vm_compute; repeat (first [left; reflexivity | right]).

(** Case analysis on the membership of an entry in an explicit record of
    calls. *)
Ltac log_cases H :=
  cbn in H;
  repeat match goal with
         | H : _ \/ _ |- _ => destruct H as [H|H]
         | H : False |- _ => destruct H
         | H : Called _ _ = Called _ _ |- _ =>
             try discriminate H; injection H as <- <-
         | H : Detected _ _ _ = Called _ _ |- _ => discriminate H
         end.

(* ===================================================================== *)
(** * Properties *)
(* ===================================================================== *)

(** ** Truthiness and the date-time pattern *)

Lemma truthy_str_Some_nonempty (o : option string) :
  truthy_str o = true <-> exists s, o = Some s /\ s <> EmptyString.
Proof.
  split.
  - destruct o as [s|]; cbn; [|discriminate].
    destruct s; cbn; [discriminate|].
    intros _. eexists; split; [reflexivity|discriminate].
  - intros (s & -> & Hs). destruct s; [contradiction|reflexivity].
Qed.

Lemma truthy_str_None : truthy_str None = false.
Proof. reflexivity. Qed.

Lemma isoDateTimeWithTimezone_nonempty (s : string) :
  isoDateTimeWithTimezone s = true -> s <> EmptyString.
Proof. intros H ->. discriminate H. Qed.

Lemma truthy_str_dateTime (s : string) :
  isoDateTimeWithTimezone s = true -> truthy_str (Some s) = true.
Proof.
  intros H. apply truthy_str_Some_nonempty. exists s.
  split; [reflexivity|]. now apply isoDateTimeWithTimezone_nonempty.
Qed.

Lemma or_else_truthy (a : option string) (b : string) :
  b <> EmptyString -> truthy (JStr (or_else a b)) = true.
Proof.
  intros Hb. unfold or_else. destruct (truthy_str a) eqn:Ha.
  - apply truthy_str_Some_nonempty in Ha as (s & -> & Hs).
    cbn. destruct s; [contradiction|reflexivity].
  - cbn. destruct b; [contradiction|reflexivity].
Qed.

(** ** Inversion of the schema *)

(** What an optional date-time key can parse to. *)
Lemma key_optional_dateTime (o : gmap string JSValue) (k : string) (v : option string) :
  z.key o k (z.optional dateTimeString) = Some v ->
  (prop o k = JUndefined /\ v = None)
  \/ (exists s, prop o k = JStr s /\ v = Some s /\ isoDateTimeWithTimezone s = true).
Proof.
  unfold z.key, z.optional, dateTimeString, z.regex, z.string.
  destruct (prop o k) as [| |b|n|s|l|m]; cbn; try discriminate.
  - intros [= <-]. now left.
  - destruct (isoDateTimeWithTimezone s) eqn:Hs; cbn; [|discriminate].
    intros [= <-]. right. now exists s.
Qed.

(** A key that holds anything but [undefined] or a string of the pattern
    makes the optional date-time schema fail. *)
Lemma key_optional_dateTime_None (o : gmap string JSValue) (k : string) :
  z.key o k (z.optional dateTimeString) = None <->
  prop o k <> JUndefined
  /\ (forall s, prop o k = JStr s -> isoDateTimeWithTimezone s = false).
Proof.
  unfold z.key, z.optional, dateTimeString, z.regex, z.string.
  destruct (prop o k) as [| |b|n|s|l|m]; cbn;
    try (split; [intros _; split; [discriminate|intros ? [=]] | reflexivity]).
  - split; [discriminate|]. now intros [[] _].
  - destruct (isoDateTimeWithTimezone s) eqn:Hs; cbn.
    + split; [discriminate|]. intros [_ H]. specialize (H s eq_refl). congruence.
    + split; [|reflexivity]. intros _. split; [discriminate|]. now intros ? [= <-].
Qed.

Lemma key_default_scope (o : gmap string JSValue) (sc : ModificationScope) :
  z.key o "modificationScope" (z.default scopeEnum (JStr "all")) = Some sc ->
  (prop o "modificationScope" = JUndefined /\ sc = ScopeAll)
  \/ (prop o "modificationScope" = JStr "single" /\ sc = ScopeSingle)
  \/ (prop o "modificationScope" = JStr "all" /\ sc = ScopeAll)
  \/ (prop o "modificationScope" = JStr "future" /\ sc = ScopeFuture).
Proof.
  unfold z.key, z.default, scopeEnum, z.enum.
  destruct (prop o "modificationScope") as [| |b|n|s|l|m]; try discriminate.
  - cbn. intros [= <-]. now left.
  - cbn [z.pick].
    destruct (String.eqb_spec s "single") as [->|_]; [intros [= <-]; tauto|].
    destruct (String.eqb_spec s "all") as [->|_]; [intros [= <-]; tauto|].
    destruct (String.eqb_spec s "future") as [->|_]; [intros [= <-]; tauto|].
    discriminate.
Qed.

(** The scope-dependent fields of an accepted object come from their keys. *)
Lemma UpdateEventObject_inv (raw : JSValue) (a : Args.t) :
  UpdateEventObject raw = Some a ->
  exists o, raw = JObj o
    /\ z.key o "modificationScope" (z.default scopeEnum (JStr "all"))
       = Some (Args.modificationScope a)
    /\ z.key o "start" (z.optional dateTimeString) = Some (Args.start a)
    /\ z.key o "end" (z.optional dateTimeString) = Some (Args.end_ a)
    /\ z.key o "originalStartTime" (z.optional dateTimeString)
       = Some (Args.originalStartTime a)
    /\ z.key o "futureStartDate" (z.optional dateTimeString)
       = Some (Args.futureStartDate a).
Proof.
  unfold UpdateEventObject, z.object.
  destruct raw as [| |b|n|s|l|o]; try discriminate.
  intros H. exists o. split; [reflexivity|].
  repeat (apply bind_Some in H; destruct H as (? & ? & H)).
  injection H as <-. cbn. auto.
Qed.

Lemma refine_Some {A} (inner : Schema A) (check : A -> bool) (v : JSValue) (a : A) :
  z.refine inner check v = Some a <-> inner v = Some a /\ check a = true.
Proof.
  unfold z.refine. split.
  - intros H. apply bind_Some in H as (x & Hx & H).
    destruct (check x) eqn:Hc; [|discriminate]. injection H as <-. auto.
  - intros [-> Hc]. cbn. now rewrite Hc.
Qed.

Lemma refine_None {A} (inner : Schema A) (check : A -> bool) (v : JSValue) (a : A) :
  inner v = Some a -> (z.refine inner check v = None <-> check a = false).
Proof.
  intros Hin. unfold z.refine. rewrite Hin. cbn.
  destruct (check a); split; congruence.
Qed.

Lemma key_string (o : gmap string JSValue) (k s : string) :
  z.key o k z.string = Some s -> prop o k = JStr s.
Proof.
  unfold z.key, z.string. destruct (prop o k); try discriminate. now intros [= ->].
Qed.

Lemma key_optional_sendUpdates (o : gmap string JSValue) (v : option SendUpdates) :
  z.key o "sendUpdates" (z.optional sendUpdatesEnum) = Some v ->
  prop o "sendUpdates" = JUndefined -> v = None.
Proof. unfold z.key. intros H Hp. rewrite Hp in H. cbn in H. congruence. Qed.

Lemma UpdateEventObject_required (raw : JSValue) (a : Args.t) :
  UpdateEventObject raw = Some a ->
  exists o, raw = JObj o
    /\ prop o "calendarId" = JStr (Args.calendarId a)
    /\ prop o "eventId" = JStr (Args.eventId a)
    /\ prop o "timeZone" = JStr (Args.timeZone a)
    /\ z.key o "sendUpdates" (z.optional sendUpdatesEnum) = Some (Args.sendUpdates a).
Proof.
  unfold UpdateEventObject, z.object.
  destruct raw as [| |b|n|s|l|o]; try discriminate.
  intros H. exists o. split; [reflexivity|].
  repeat (apply bind_Some in H; destruct H as (? & ? & H)).
  injection H as <-. cbn. auto using key_string.
Qed.

Lemma key_optional_sendUpdates_inv (o : gmap string JSValue)
    (v : option SendUpdates) :
  z.key o "sendUpdates" (z.optional sendUpdatesEnum) = Some v ->
  (prop o "sendUpdates" = JUndefined /\ v = None)
  \/ (exists lit su,
        prop o "sendUpdates" = JStr lit
        /\ z.pick [("all", SendAll); ("externalOnly", SendExternalOnly);
                   ("none", SendNone)] lit = Some su
        /\ v = Some su).
Proof.
  unfold z.key, z.optional, sendUpdatesEnum, z.enum.
  destruct (prop o "sendUpdates") as [| |b|n|lit|l|m];
    try (cbn; discriminate).
  - intros [= <-]. now left.
  - intros H. apply fmap_Some in H as (su & Hpick & ->).
    right. now exists lit, su.
Qed.

Section ValidationFacts.

Variable Date_parse : string -> option Z.
Variable now : Z.

(** Acceptance is acceptance by the object schema and by each refinement. *)
Lemma schema_Some (raw : JSValue) (a : Args.t) :
  UpdateEventArgumentsSchema Date_parse now raw = Some a <->
  UpdateEventObject raw = Some a
  /\ requireOriginalStartTime a = true
  /\ requireFutureStartDate a = true
  /\ futureStartDateInFuture Date_parse now a = true.
Proof.
  unfold UpdateEventArgumentsSchema. rewrite !refine_Some. tauto.
Qed.

(** On an object whose fields are well-formed, failure is the failure of a
    refinement. *)
Lemma schema_None (raw : JSValue) (a : Args.t) :
  UpdateEventObject raw = Some a ->
  (UpdateEventArgumentsSchema Date_parse now raw = None <->
   requireOriginalStartTime a = false
   \/ requireFutureStartDate a = false
   \/ futureStartDateInFuture Date_parse now a = false).
Proof.
  intros Hobj. split.
  - intros Hnone.
    destruct (requireOriginalStartTime a) eqn:H1; [|tauto].
    destruct (requireFutureStartDate a) eqn:H2; [|tauto].
    destruct (futureStartDateInFuture Date_parse now a) eqn:H3; [|tauto].
    assert (UpdateEventArgumentsSchema Date_parse now raw = Some a) by (apply schema_Some; tauto). congruence.
  - intros H. destruct (UpdateEventArgumentsSchema Date_parse now raw) as [a'|] eqn:Hs; [|reflexivity].
    apply schema_Some in Hs as (Hobj' & H1 & H2 & H3).
    assert (a' = a) by congruence. subst a'.
    destruct H as [H|[H|H]]; congruence.
Qed.

Lemma laterThanNow_true (s : string) :
  laterThanNow Date_parse now s = true <->
  exists t, Date_parse s = Some t /\ now < t.
Proof.
  unfold laterThanNow. destruct (Date_parse s) as [t|].
  - rewrite Z.ltb_lt. split; [eauto|]. now intros (t' & [= <-] & H).
  - split; [discriminate|]. now intros (t' & [=] & _).
Qed.

Lemma laterThanNow_false (s : string) :
  laterThanNow Date_parse now s = false <->
  ~ exists t, Date_parse s = Some t /\ now < t.
Proof.
  rewrite <- laterThanNow_true. destruct (laterThanNow Date_parse now s); split;
    congruence.
Qed.

Lemma scope_of_key (o : gmap string JSValue) (a : Args.t) (lit : string)
    (sc : ModificationScope) :
  UpdateEventObject (JObj o) = Some a ->
  prop o "modificationScope" = JStr lit ->
  z.pick [("single", ScopeSingle); ("all", ScopeAll); ("future", ScopeFuture)] lit = Some sc ->
  Args.modificationScope a = sc.
Proof.
  intros Hobj Hkey Hpick.
  apply UpdateEventObject_inv in Hobj as (o' & [= <-] & Hsc & _).
  unfold z.key, z.default, scopeEnum, z.enum in Hsc. rewrite Hkey in Hsc.
  congruence.
Qed.

(** The first two refinements, read on the raw object. *)
Lemma requireOriginalStartTime_false (o : gmap string JSValue) (a : Args.t) :
  UpdateEventObject (JObj o) = Some a ->
  (requireOriginalStartTime a = false <->
   Args.modificationScope a = ScopeSingle /\ prop o "originalStartTime" = JUndefined).
Proof.
  intros Hobj.
  apply UpdateEventObject_inv in Hobj as (o' & [= <-] & _ & _ & _ & Host & _).
  unfold requireOriginalStartTime.
  apply key_optional_dateTime in Host as [[Hp ->]|(s & Hp & -> & Hs)].
  - rewrite truthy_str_None. cbn [negb]. rewrite andb_true_r.
    case_bool_decide; split; intros; try tauto; try discriminate.
  - rewrite (truthy_str_dateTime s Hs). cbn [negb]. rewrite andb_false_r.
    split; [discriminate|]. intros [_ H]. congruence.
Qed.

Lemma requireFutureStartDate_false (o : gmap string JSValue) (a : Args.t) :
  UpdateEventObject (JObj o) = Some a ->
  (requireFutureStartDate a = false <->
   Args.modificationScope a = ScopeFuture /\ prop o "futureStartDate" = JUndefined).
Proof.
  intros Hobj.
  apply UpdateEventObject_inv in Hobj as (o' & [= <-] & _ & _ & _ & _ & Hfsd).
  unfold requireFutureStartDate.
  apply key_optional_dateTime in Hfsd as [[Hp ->]|(s & Hp & -> & Hs)].
  - rewrite truthy_str_None. cbn [negb]. rewrite andb_true_r.
    case_bool_decide; split; intros; try tauto; try discriminate.
  - rewrite (truthy_str_dateTime s Hs). cbn [negb]. rewrite andb_false_r.
    split; [discriminate|]. intros [_ H]. congruence.
Qed.

(** The third refinement, read on the raw object: it fails exactly on a
    futureStartDate that is there and is not later than the clock. *)
Lemma futureStartDateInFuture_false (o : gmap string JSValue) (a : Args.t) :
  UpdateEventObject (JObj o) = Some a ->
  (futureStartDateInFuture Date_parse now a = false <->
   exists s, prop o "futureStartDate" = JStr s
             /\ ~ exists t, Date_parse s = Some t /\ now < t).
Proof.
  intros Hobj.
  apply UpdateEventObject_inv in Hobj as (o' & [= <-] & _ & _ & _ & _ & Hfsd).
  unfold futureStartDateInFuture.
  apply key_optional_dateTime in Hfsd as [[Hp ->]|(s & Hp & -> & Hs)].
  - rewrite truthy_str_None. split; [discriminate|].
    intros (s & Hs & _). congruence.
  - rewrite (truthy_str_dateTime s Hs), laterThanNow_false. split.
    + intros H. now exists s.
    + intros (s' & Hs' & H). assert (s' = s) as -> by congruence. exact H.
Qed.

(** C5. For a command whose modificationScope is `future` and whose fields
    are each well-formed (the object schema accepts them), validation fails
    if and only if futureStartDate is absent or is not strictly later than
    the current time. *)
Theorem future_scope_validation (o : gmap string JSValue) (a : Args.t) :
  UpdateEventObject (JObj o) = Some a ->
  prop o "modificationScope" = JStr "future" ->
  (UpdateEventArgumentsSchema Date_parse now (JObj o) = None <->
   prop o "futureStartDate" = JUndefined
   \/ exists s, prop o "futureStartDate" = JStr s
                /\ ~ exists t, Date_parse s = Some t /\ now < t).
Proof.
  intros Hobj Hkey.
  assert (Hsc : Args.modificationScope a = ScopeFuture)
    by (eapply scope_of_key; eauto).
  rewrite (schema_None _ a Hobj).
  rewrite (requireOriginalStartTime_false o a Hobj).
  rewrite (requireFutureStartDate_false o a Hobj).
  rewrite (futureStartDateInFuture_false o a Hobj).
  rewrite Hsc. split.
  - intros [[[=] _]|[[_ H]|H]]; auto.
  - intros [H|H]; auto.
Qed.

(** C6, as amended. For a command whose modificationScope is `single` and
    whose fields are each well-formed, validation fails if and only if
    originalStartTime is absent, or futureStartDate is present and is not
    strictly later than the current time. *)
Theorem single_scope_validation (o : gmap string JSValue) (a : Args.t) :
  UpdateEventObject (JObj o) = Some a ->
  prop o "modificationScope" = JStr "single" ->
  (UpdateEventArgumentsSchema Date_parse now (JObj o) = None <->
   prop o "originalStartTime" = JUndefined
   \/ exists s, prop o "futureStartDate" = JStr s
                /\ ~ exists t, Date_parse s = Some t /\ now < t).
Proof.
  intros Hobj Hkey.
  assert (Hsc : Args.modificationScope a = ScopeSingle)
    by (eapply scope_of_key; eauto).
  rewrite (schema_None _ a Hobj).
  rewrite (requireOriginalStartTime_false o a Hobj).
  rewrite (requireFutureStartDate_false o a Hobj).
  rewrite (futureStartDateInFuture_false o a Hobj).
  rewrite Hsc. split.
  - intros [[_ H]|[[[=] _]|H]]; auto.
  - intros [H|H]; auto.
Qed.

(** C9. Whatever the modificationScope, a request that carries a
    futureStartDate which is not strictly later than the current time fails
    validation. *)
Theorem stale_futureStartDate_rejected (o : gmap string JSValue) :
  prop o "futureStartDate" <> JUndefined ->
  ~ (exists s t, prop o "futureStartDate" = JStr s
                 /\ Date_parse s = Some t /\ now < t) ->
  UpdateEventArgumentsSchema Date_parse now (JObj o) = None.
Proof.
  intros Hpresent Hstale.
  destruct (UpdateEventArgumentsSchema Date_parse now (JObj o)) as [a|] eqn:Hs;
    [exfalso|reflexivity].
  apply schema_Some in Hs as (Hobj & _ & _ & H3).
  destruct (futureStartDateInFuture Date_parse now a) eqn:H3'; [|discriminate].
  clear H3.
  apply UpdateEventObject_inv in Hobj as (o' & [= <-] & _ & _ & _ & _ & Hfsd).
  apply key_optional_dateTime in Hfsd as [[Hp _]|(s & Hp & Ha & Hiso)];
    [contradiction|].
  unfold futureStartDateInFuture in H3'.
  rewrite Ha, (truthy_str_dateTime s Hiso) in H3'.
  apply laterThanNow_true in H3' as (t & Ht & Hlt).
  apply Hstale. now exists s, t.
Qed.

End ValidationFacts.

(** ** The handler *)


Section HandlerFacts.

Variable handleGoogleApiError : Exn -> Exn.

Lemma scopeMismatch_true (scope : ModificationScope) (t : EventType) :
  scopeMismatch scope t = true <-> scope <> ScopeAll /\ t <> TypeRecurring.
Proof.
  unfold scopeMismatch. rewrite andb_true_iff, !negb_true_iff, !bool_decide_eq_false.
  reflexivity.
Qed.

Lemma scopeMismatch_false (scope : ModificationScope) (t : EventType) :
  scopeMismatch scope t = false -> scope = ScopeAll \/ t = TypeRecurring.
Proof. destruct scope, t; cbn; auto; discriminate. Qed.

(** C1, as amended. When the classification of the target returns, the
    resolver rejects the command with the scope-mismatch error if and only if
    the scope is not `all` and the classified type is not `recurring`; a
    target classified `instance` is rejected like a standalone one.  The
    rejection comes before any request to the service. *)
Theorem scope_mismatch_iff (helpers : RecurringEventHelpers) (args : Args.t)
    (svc : Service) (t : EventType) :
  detect svc [] (Args.eventId args) (Args.calendarId args) = Normal t ->
  ((exists msg,
      (run (updateEventWithScope handleGoogleApiError helpers args) svc []).1
      = Raised Here (RecurringEventError msg NON_RECURRING_SCOPE))
   <-> Args.modificationScope args <> ScopeAll /\ t <> TypeRecurring)
  /\ (Args.modificationScope args <> ScopeAll -> t <> TypeRecurring ->
      requests (run (updateEventWithScope handleGoogleApiError helpers args) svc []).2
      = []).
Proof.
  intros Hdet. unfold updateEventWithScope. cbn [run]. rewrite Hdet.
  destruct (scopeMismatch (Args.modificationScope args) t) eqn:Hmm.
  - cbn. split; [|reflexivity]. split.
    + intros _. now apply scopeMismatch_true.
    + intros _. eexists. reflexivity.
  - split.
    + split.
      * intros [msg H]. exfalso. revert H.
        unfold updateSingleInstance, updateAllInstances, updateFutureInstances.
        destruct (Args.modificationScope args); run_cases; discriminate.
      * intros H. apply scopeMismatch_true in H. congruence.
    + intros H1 H2. assert (scopeMismatch (Args.modificationScope args) t = true)
        by now apply scopeMismatch_true.
      congruence.
Qed.

(** C7, as amended. Every request of an update that has a [sendUpdates]
    parameter (the patch of the `single` and `all` scopes, the truncation
    patch and the insertion of the `future` scope) carries the caller's
    value unmodified; the fetch of the `future` scope has no such
    parameter. *)
Theorem sendUpdates_passed_to_mutations (helpers : RecurringEventHelpers)
    (args : Args.t) (svc : Service) (rq : Request) (su : option SendUpdates) :
  In rq (requests (run (updateEventWithScope handleGoogleApiError helpers args) svc []).2) ->
  carriedSendUpdates rq = Some su ->
  su = Args.sendUpdates args.
Proof.
  unfold updateEventWithScope, updateSingleInstance, updateAllInstances,
    updateFutureInstances.
  destruct (Args.modificationScope args).
  all: run_cases.
  all: intros Hin Hc; cbn in Hin; intuition (subst; cbn in Hc; congruence).
Qed.

(** C10. On an argument object that the schema accepted, the tests that
    guard the two defensive branches succeed, and no run of the handler ends
    in the error of either branch. *)
Theorem defensive_branches_unreachable (Date_parse : string -> option Z) (now : Z)
    (raw : JSValue) (a : Args.t) :
  UpdateEventArgumentsSchema Date_parse now raw = Some a ->
  (Args.modificationScope a = ScopeSingle ->
   truthy_str (Args.originalStartTime a) = true)
  /\ (Args.modificationScope a = ScopeFuture ->
      truthy_str (Args.futureStartDate a) = true)
  /\ forall (helpers : RecurringEventHelpers) (svc : Service) (msg : string),
       (run (updateEventWithScope handleGoogleApiError helpers a) svc []).1
       <> Raised Here (RecurringEventError msg MISSING_ORIGINAL_TIME)
       /\ (run (updateEventWithScope handleGoogleApiError helpers a) svc []).1
          <> Raised Here (RecurringEventError msg MISSING_FUTURE_DATE).
Proof.
  intros Hs. apply schema_Some in Hs as (_ & H1 & H2 & _).
  assert (G1 : Args.modificationScope a = ScopeSingle ->
               truthy_str (Args.originalStartTime a) = true).
  { intros Hsc. unfold requireOriginalStartTime in H1. rewrite Hsc in H1.
    destruct (truthy_str (Args.originalStartTime a)); [reflexivity|discriminate]. }
  assert (G2 : Args.modificationScope a = ScopeFuture ->
               truthy_str (Args.futureStartDate a) = true).
  { intros Hsc. unfold requireFutureStartDate in H2. rewrite Hsc in H2.
    destruct (truthy_str (Args.futureStartDate a)); [reflexivity|discriminate]. }
  split; [exact G1|]. split; [exact G2|].
  intros helpers svc msg.
  unfold updateEventWithScope, updateSingleInstance, updateAllInstances,
    updateFutureInstances.
  destruct (Args.modificationScope a).
  - rewrite (G1 eq_refl). cbn [negb]. split; run_cases; discriminate.
  - split; run_cases; discriminate.
  - rewrite (G2 eq_refl). cbn [negb]. split; run_cases; discriminate.
Qed.

(** C4. In a `future`-scope update, the body of the patch sent to the
    original event holds the rewritten rule set under "recurrence" and nothing
    else, so that a partial update with it leaves every other property of the
    stored series as it was. *)
Theorem truncation_patch_only_recurrence (helpers : RecurringEventHelpers)
    (args : Args.t) (svc : Service) (p : Patch.params) (ans : Completion Response) :
  Args.modificationScope args = ScopeFuture ->
  In (Called (EventsPatch p) ans)
     (run (updateEventWithScope handleGoogleApiError helpers args) svc []).2 ->
  Patch.calendarId p = Args.calendarId args
  /\ Patch.eventId p = Args.eventId args
  /\ (exists g r originalEvent untilDate updatedRecurrence,
        In (Called (EventsGet g) (Normal r))
           (run (updateEventWithScope handleGoogleApiError helpers args) svc []).2
        /\ data r = Some originalEvent
        /\ calculateUntilDate helpers (narrowed (Args.futureStartDate args))
           = Normal untilDate
        /\ updateRecurrenceWithUntil helpers (prop originalEvent "recurrence") untilDate
           = Normal updatedRecurrence
        /\ Patch.requestBody p = {["recurrence" := updatedRecurrence]})
  /\ dom (Patch.requestBody p) = {["recurrence"]}
  /\ forall (stored : gmap string JSValue) (k : string),
       k <> "recurrence" ->
       applyPatch stored (Patch.requestBody p) !! k = stored !! k.
Proof.
  intros Hsc. unfold updateEventWithScope, updateFutureInstances. rewrite Hsc.
  run_cases.
  all: intros Hin; cbn in Hin;
    repeat match goal with
           | H : _ \/ _ |- _ => destruct H as [H|H]
           | H : False |- _ => destruct H
           | H : Called _ _ = Called _ _ |- _ => try discriminate H; injection H as <- <-
           | H : Detected _ _ _ = Called _ _ |- _ => discriminate H
           end.
  all: cbn [Patch.calendarId Patch.eventId Patch.requestBody].
  all: split; [reflexivity|]; split; [reflexivity|]; split;
    [ do 5 eexists; split; [cbn; eauto|]; repeat split; eauto
    | split; [apply dom_singleton_L|];
      intros stored k Hk; unfold applyPatch;
      rewrite lookup_union, lookup_singleton_ne by congruence;
      now destruct (stored !! k) ].
Qed.

(** C3. In a `future`-scope update the insertion is the last request of the
    run: when it is rejected, the rejection is what the caller receives, and
    the requests issued are the fetch, the truncation patch, which the
    service accepted, and the insertion; nothing is sent after it to undo
    the truncation.  The same holds when the insertion answers without
    data. *)
Theorem failed_insert_not_rolled_back (helpers : RecurringEventHelpers)
    (args : Args.t) (svc : Service) (p : Insert.params) (ans : Completion Response) :
  In (Called (EventsInsert p) ans)
     (run (updateEventWithScope handleGoogleApiError helpers args) svc []).2 ->
  (exists g r tp r' updatedRecurrence,
      (run (updateEventWithScope handleGoogleApiError helpers args) svc []).2
      = [Detected (Args.eventId args) (Args.calendarId args) (Normal TypeRecurring);
         Called (EventsGet g) (Normal r);
         Called (EventsPatch tp) (Normal r');
         Called (EventsInsert p) ans]
      /\ Patch.eventId tp = Args.eventId args
      /\ Patch.requestBody tp = {["recurrence" := updatedRecurrence]})
  /\ (forall e, ans = Abrupt e ->
        (run (updateEventWithScope handleGoogleApiError helpers args) svc []).1
        = Raised Below e)
  /\ (forall r, ans = Normal r -> data r = None ->
        (run (updateEventWithScope handleGoogleApiError helpers args) svc []).1
        = Raised Here (Error "Failed to create new recurring event")).
Proof.
  unfold updateEventWithScope, updateSingleInstance, updateAllInstances,
    updateFutureInstances.
  destruct (Args.modificationScope args) eqn:Hsc.
  all: run_cases.
  all: intros Hin; cbn in Hin;
    repeat match goal with
           | H : _ \/ _ |- _ => destruct H as [H|H]
           | H : False |- _ => destruct H
           | H : Called _ _ = Called _ _ |- _ => try discriminate H; injection H as <- <-
           | H : Detected _ _ _ = Called _ _ |- _ => discriminate H
           end.
  all: match goal with
       | H : scopeMismatch ScopeFuture ?t = false |- _ =>
           apply scopeMismatch_false in H as [H|H]; [discriminate H|subst t]
       end.
  all: split; [do 5 eexists; split; [reflexivity|]; split; reflexivity|].
  all: split; [intros e' [=]; subst; try reflexivity
              |intros r' [=] Hd; subst; try reflexivity; congruence].
Qed.

Lemma or_else_absent (b : string) : or_else None b = b.
Proof. reflexivity. Qed.

Lemma or_else_supplied (s b : string) : s <> EmptyString -> or_else (Some s) b = s.
Proof. intros Hs. unfold or_else. destruct s; [contradiction|reflexivity]. Qed.

Lemma newEventBody_start (cleaned requestBody : gmap string JSValue)
    (startTime : string) (endTime : option string) (timeZone : string) :
  newEventBody cleaned requestBody startTime endTime timeZone !! "start"
  = Some (timePoint (JStr startTime) timeZone).
Proof.
  unfold newEventBody. rewrite lookup_insert_ne by discriminate.
  apply lookup_insert_eq.
Qed.

Lemma newEventBody_end (cleaned requestBody : gmap string JSValue)
    (startTime : string) (endTime : option string) (timeZone : string) :
  newEventBody cleaned requestBody startTime endTime timeZone !! "end"
  = Some (timePoint (of_opt_string endTime) timeZone).
Proof. unfold newEventBody. apply lookup_insert_eq. Qed.

(** C2, as amended. The event inserted by a `future`-scope update starts at
    the caller-supplied start when there is one and at futureStartDate
    otherwise; it ends at the caller-supplied end when there is one, and
    otherwise at the projection of that start by the duration (end − start)
    of the original event that was fetched.  Both carry the caller's time
    zone. *)
Theorem inserted_event_times (Date_parse : string -> option Z)
    (Date_toISOString : Z -> string) (helpers : RecurringEventHelpers)
    (args : Args.t) (svc : Service) (p : Insert.params) (ans : Completion Response) :
  calculateEndTime helpers = calculateEndTimeSpec Date_parse Date_toISOString ->
  In (Called (EventsInsert p) ans)
     (run (updateEventWithScope handleGoogleApiError helpers args) svc []).2 ->
  exists futureStartDate newStart,
    Args.futureStartDate args = Some futureStartDate
    /\ newStart = or_else (Args.start args) futureStartDate
    /\ (Args.start args = None -> newStart = futureStartDate)
    /\ (forall s, Args.start args = Some s -> s <> EmptyString -> newStart = s)
    /\ Insert.requestBody p !! "start"
       = Some (timePoint (JStr newStart) (Args.timeZone args))
    /\ (forall e, Args.end_ args = Some e -> e <> EmptyString ->
          Insert.requestBody p !! "end"
          = Some (timePoint (JStr e) (Args.timeZone args)))
    /\ (Args.end_ args = None ->
          exists g r originalEvent t duration,
            In (Called (EventsGet g) (Normal r))
               (run (updateEventWithScope handleGoogleApiError helpers args) svc []).2
            /\ data r = Some originalEvent
            /\ Date_parse newStart = Some t
            /\ estimateDuration Date_parse originalEvent = Some duration
            /\ Insert.requestBody p !! "end"
               = Some (timePoint (JStr (Date_toISOString (t + duration)))
                                 (Args.timeZone args))).
Proof.
  intros Hspec.
  unfold updateEventWithScope, updateSingleInstance, updateAllInstances,
    updateFutureInstances.
  rewrite Hspec.
  destruct (Args.modificationScope args) eqn:Hsc.
  all: run_cases.
  all: intros Hin; cbn in Hin;
    repeat match goal with
           | H : _ \/ _ |- _ => destruct H as [H|H]
           | H : False |- _ => destruct H
           | H : Called _ _ = Called _ _ |- _ => try discriminate H; injection H as <- <-
           | H : Detected _ _ _ = Called _ _ |- _ => discriminate H
           end.
  all: match goal with
       | H : negb (truthy_str (Args.futureStartDate _)) = false |- _ =>
           apply negb_false_iff, truthy_str_Some_nonempty in H as (fsd & Hfsd & Hne)
       end.
  all: rewrite Hfsd in *; cbn [narrowed default id] in *.
  all: exists fsd; eexists.
  all: split; [reflexivity|]; split; [reflexivity|].
  all: split; [intros ->; reflexivity|].
  all: split; [intros s -> Hs; now apply or_else_supplied|].
  all: cbn [Insert.requestBody]; rewrite newEventBody_start, newEventBody_end.
  all: split; [reflexivity|].
  all: try match goal with
           | H : truthy (JStr (or_else _ _)) = false |- _ =>
               rewrite or_else_truthy in H by assumption; discriminate H
           end.
  all: match goal with
       | H : truthy_str (Args.end_ _) = true |- _ =>
           split; [intros ? -> _; reflexivity
                  |intros Hend; rewrite Hend in H; discriminate H]
       | H : truthy_str (Args.end_ _) = false |- _ =>
           split; [intros supplied Hend Hne'; rewrite Hend in H;
                   destruct supplied; [contradiction|discriminate H]|]
       end.
  all: intros _.
  all: match goal with
       | H : calculateEndTimeSpec _ _ ?s _ = Normal _ |- _ =>
           unfold calculateEndTimeSpec, projectEnd in H;
           destruct (Date_parse s) as [t|] eqn:Ht; [|discriminate H];
           destruct (estimateDuration Date_parse _) as [d|] eqn:Hd;
             [|discriminate H];
           injection H as <-
       end.
  all: do 5 eexists; split; [cbn; eauto|]; repeat split; eauto.
Qed.

(** C8. A request without modificationScope that passes validation has
    scope `all`, and processing it sends the service at most one request: a
    patch addressed at the calendar and event identifiers as the request
    gives them, with the request's sendUpdates and the body built from the
    command; that patch is sent whenever the classification returns and the
    body can be built. *)
Theorem omitted_scope_patches_event (Date_parse : string -> option Z) (now : Z)
    (ToString : JSValue -> string) (o : gmap string JSValue) (a : Args.t) :
  prop o "modificationScope" = JUndefined ->
  UpdateEventArgumentsSchema Date_parse now (JObj o) = Some a ->
  Args.modificationScope a = ScopeAll
  /\ (exists calendarId eventId,
        prop o "calendarId" = JStr calendarId
        /\ prop o "eventId" = JStr eventId
        /\ ((prop o "sendUpdates" = JUndefined /\ Args.sendUpdates a = None)
            \/ (exists lit su,
                  prop o "sendUpdates" = JStr lit
                  /\ z.pick [("all", SendAll); ("externalOnly", SendExternalOnly);
                             ("none", SendNone)] lit = Some su
                  /\ Args.sendUpdates a = Some su))
        /\ forall (helpers : RecurringEventHelpers) (svc : Service),
             let sent :=
               requests (run (runTool handleGoogleApiError Date_parse now ToString
                                helpers (JObj o)) svc []).2 in
             let patch body :=
               EventsPatch {| Patch.calendarId := calendarId;
                              Patch.eventId := eventId;
                              Patch.requestBody := body;
                              Patch.sendUpdates := Args.sendUpdates a |} in
             (sent = []
              \/ exists body, buildUpdateRequestBody helpers a = Normal body
                              /\ sent = [patch body])
             /\ (forall t body,
                   detect svc [] eventId calendarId = Normal t ->
                   buildUpdateRequestBody helpers a = Normal body ->
                   sent = [patch body]))
  /\ forall (helpers : RecurringEventHelpers) (svc : Service),
       let sent :=
         requests (run (runTool handleGoogleApiError Date_parse now ToString
                          helpers (JObj o)) svc []).2 in
       let patch body :=
         EventsPatch {| Patch.calendarId := Args.calendarId a;
                        Patch.eventId := Args.eventId a;
                        Patch.requestBody := body;
                        Patch.sendUpdates := Args.sendUpdates a |} in
       (sent = []
        \/ exists body, buildUpdateRequestBody helpers a = Normal body
                        /\ sent = [patch body])
       /\ (forall t body,
             detect svc [] (Args.eventId a) (Args.calendarId a) = Normal t ->
             buildUpdateRequestBody helpers a = Normal body ->
             sent = [patch body]).
Proof.
  intros Hkey Hs.
  assert (Hsc : Args.modificationScope a = ScopeAll).
  { apply schema_Some in Hs as (Hobj & _).
    apply UpdateEventObject_inv in Hobj as (o' & [= <-] & Hk & _).
    apply key_default_scope in Hk as [[_ H]|[[H _]|[[H _]|[H _]]]];
      [exact H|congruence..]. }
  assert (Hrun : forall (helpers : RecurringEventHelpers) (svc : Service),
       let sent :=
         requests (run (runTool handleGoogleApiError Date_parse now ToString
                          helpers (JObj o)) svc []).2 in
       let patch body :=
         EventsPatch {| Patch.calendarId := Args.calendarId a;
                        Patch.eventId := Args.eventId a;
                        Patch.requestBody := body;
                        Patch.sendUpdates := Args.sendUpdates a |} in
       (sent = []
        \/ exists body, buildUpdateRequestBody helpers a = Normal body
                        /\ sent = [patch body])
       /\ (forall t body,
             detect svc [] (Args.eventId a) (Args.calendarId a) = Normal t ->
             buildUpdateRequestBody helpers a = Normal body ->
             sent = [patch body])).
  { intros helpers svc. cbv zeta.
    unfold runTool. rewrite Hs.
    unfold updateEventWithScope, updateAllInstances. rewrite Hsc.
    replace (scopeMismatch ScopeAll) with (fun _ : EventType => false)
      by reflexivity.
    run_cases.
    all: split; [first [left; reflexivity | right; eexists; split; reflexivity]|].
    all: intros t body Ht Hb; congruence. }
  split; [exact Hsc|]. split; [|exact Hrun].
  pose proof Hs as Hobj. apply schema_Some in Hobj as (Hobj & _).
  apply UpdateEventObject_required in Hobj as (o' & [= <-] & Hcal & Hev & _ & Hsu).
  exists (Args.calendarId a), (Args.eventId a).
  split; [exact Hcal|]. split; [exact Hev|].
  split; [now apply key_optional_sendUpdates_inv|exact Hrun].
Qed.

End HandlerFacts.

(* ===================================================================== *)
(** * The properties on worked data *)
(* ===================================================================== *)

Lemma future_scope_validation_witness :
  UpdateEventArgumentsSchema IsoDate.parse Demo.now (JObj Demo.objFuturePast) = None
  <-> (prop Demo.objFuturePast "futureStartDate" = JUndefined
       \/ exists s, prop Demo.objFuturePast "futureStartDate" = JStr s
                    /\ ~ exists t, IsoDate.parse s = Some t /\ Demo.now < t).
Proof.
  apply (future_scope_validation IsoDate.parse Demo.now Demo.objFuturePast
           (Demo.args ScopeFuture None None (Some "2000-01-01T00:00:00Z") None)).
  - vm_compute. reflexivity.
  - vm_compute. reflexivity.
Defined.

Lemma single_scope_validation_witness :
  UpdateEventArgumentsSchema IsoDate.parse Demo.now (JObj Demo.objSinglePastFuture) = None
  <-> (prop Demo.objSinglePastFuture "originalStartTime" = JUndefined
       \/ exists s, prop Demo.objSinglePastFuture "futureStartDate" = JStr s
                    /\ ~ exists t, IsoDate.parse s = Some t /\ Demo.now < t).
Proof.
  apply (single_scope_validation IsoDate.parse Demo.now Demo.objSinglePastFuture
           (Demo.args ScopeSingle None (Some "2030-08-15T10:00:00-07:00")
                      (Some "2000-01-01T00:00:00Z") None)).
  - vm_compute. reflexivity.
  - vm_compute. reflexivity.
Defined.

(** C6 as stated fails: a `single`-scope command with its originalStartTime
    and a futureStartDate in the past has well-formed fields and is
    rejected. *)
Lemma single_scope_validation_counterexample :
  ~ (forall (o : gmap string JSValue) (a : Args.t),
       UpdateEventObject (JObj o) = Some a ->
       prop o "modificationScope" = JStr "single" ->
       (UpdateEventArgumentsSchema IsoDate.parse Demo.now (JObj o) = None
        <-> prop o "originalStartTime" = JUndefined)).
Proof.
  intros claim.
  specialize (claim Demo.objSinglePastFuture
                (Demo.args ScopeSingle None (Some "2030-08-15T10:00:00-07:00")
                           (Some "2000-01-01T00:00:00Z") None)).
  destruct claim as [claim _]; [vm_compute; reflexivity..|].
  vm_compute in claim. specialize (claim eq_refl). discriminate claim.
Qed.

Lemma stale_futureStartDate_rejected_witness :
  UpdateEventArgumentsSchema IsoDate.parse Demo.now (JObj Demo.objAllPastFuture) = None.
Proof.
  apply (stale_futureStartDate_rejected IsoDate.parse Demo.now Demo.objAllPastFuture).
  - vm_compute. discriminate.
  - intros (s & t & Hs & Ht & Hlt).
    vm_compute in Hs. injection Hs as <-.
    vm_compute in Ht. injection Ht as <-.
    vm_compute in Hlt. discriminate Hlt.
Defined.

Lemma scope_mismatch_iff_witness :
  ((exists msg,
      (run (updateEventWithScope Demo.handleGoogleApiError Demo.helpers Demo.argsSingle)
           (Demo.service TypeInstance) []).1
      = Raised Here (RecurringEventError msg NON_RECURRING_SCOPE))
   <-> Args.modificationScope Demo.argsSingle <> ScopeAll
       /\ TypeInstance <> TypeRecurring)
  /\ (Args.modificationScope Demo.argsSingle <> ScopeAll ->
      TypeInstance <> TypeRecurring ->
      requests (run (updateEventWithScope Demo.handleGoogleApiError Demo.helpers
                       Demo.argsSingle) (Demo.service TypeInstance) []).2
      = []).
Proof.
  apply (scope_mismatch_iff Demo.handleGoogleApiError Demo.helpers Demo.argsSingle
           (Demo.service TypeInstance) TypeInstance).
  reflexivity.
Defined.

(** C1 as stated fails: a validated `single`-scope command whose target is
    classified `instance` is rejected with the scope-mismatch error. *)
Lemma scope_mismatch_counterexample :
  ~ (forall (raw : JSValue) (args : Args.t) (helpers : RecurringEventHelpers)
            (svc : Service) (t : EventType),
       UpdateEventArgumentsSchema IsoDate.parse Demo.now raw = Some args ->
       detect svc [] (Args.eventId args) (Args.calendarId args) = Normal t ->
       ((exists msg,
           (run (updateEventWithScope Demo.handleGoogleApiError helpers args) svc []).1
           = Raised Here (RecurringEventError msg NON_RECURRING_SCOPE))
        <-> Args.modificationScope args <> ScopeAll
            /\ t <> TypeRecurring /\ t <> TypeInstance)).
Proof.
  intros claim.
  specialize (claim (JObj Demo.objSingle) Demo.argsSingle Demo.helpers
                (Demo.service TypeInstance) TypeInstance).
  destruct claim as [claim _]; [vm_compute; reflexivity..|].
  destruct claim as (_ & _ & absurd).
  - eexists. vm_compute. reflexivity.
  - now apply absurd.
Qed.

Lemma inserted_event_times_witness :
  exists futureStartDate newStart,
    Args.futureStartDate Demo.argsFutureMoved = Some futureStartDate
    /\ newStart = "2030-09-02T10:00:00-07:00"
    /\ Insert.requestBody
         (Demo.insertion "2030-09-02T10:00:00-07:00" "2030-09-02T17:30:00.000Z")
       !! "start"
       = Some (timePoint (JStr newStart) "America/Los_Angeles")
    /\ Insert.requestBody
         (Demo.insertion "2030-09-02T10:00:00-07:00" "2030-09-02T17:30:00.000Z")
       !! "end"
       = Some (timePoint (JStr "2030-09-02T17:30:00.000Z") "America/Los_Angeles").
Proof.
  destruct (inserted_event_times Demo.handleGoogleApiError
              IsoDate.parse IsoDate.toISOString Demo.helpers Demo.argsFutureMoved
              (Demo.service TypeRecurring)
              (Demo.insertion "2030-09-02T10:00:00-07:00" "2030-09-02T17:30:00.000Z")
              (Demo.accepted
                 (Demo.insertion "2030-09-02T10:00:00-07:00"
                                 "2030-09-02T17:30:00.000Z")))
    as (fsd & newStart & Hfsd & Hnew & _ & Hsupplied & Hstart & _ & Hend).
  - reflexivity.
  - in_list.
  - exists fsd, newStart. split; [exact Hfsd|].
    split; [apply (Hsupplied _ eq_refl); discriminate|].
    split; [exact Hstart|].
    vm_compute. reflexivity.
Defined.

(** C2 as stated fails: when the command also supplies a start, the inserted
    event starts there and not at futureStartDate. *)
Lemma inserted_event_times_counterexample :
  ~ (forall (raw : JSValue) (args : Args.t) (helpers : RecurringEventHelpers)
            (svc : Service) (p : Insert.params) (ans : Completion Response),
       UpdateEventArgumentsSchema IsoDate.parse Demo.now raw = Some args ->
       Args.modificationScope args = ScopeFuture ->
       In (Called (EventsInsert p) ans)
          (run (updateEventWithScope Demo.handleGoogleApiError helpers args) svc []).2 ->
       exists start,
         Insert.requestBody p !! "start" = Some (JObj start)
         /\ prop start "dateTime" = of_opt_string (Args.futureStartDate args)).
Proof.
  intros claim.
  specialize (claim (JObj Demo.objFutureMoved) Demo.argsFutureMoved Demo.helpers
                (Demo.service TypeRecurring)
                (Demo.insertion "2030-09-02T10:00:00-07:00" "2030-09-02T17:30:00.000Z")
                (Demo.accepted
                   (Demo.insertion "2030-09-02T10:00:00-07:00"
                                   "2030-09-02T17:30:00.000Z"))).
  destruct claim as (start & Hstart & HdateTime);
    [vm_compute; reflexivity | reflexivity | in_list |].
  vm_compute in Hstart. injection Hstart as <-.
  vm_compute in HdateTime. discriminate HdateTime.
Qed.

Lemma failed_insert_not_rolled_back_witness :
  (run (updateEventWithScope Demo.handleGoogleApiError Demo.helpers Demo.argsFuture)
       Demo.serviceRejectingInsert []).1
  = Raised Below (Thrown (JStr "503"))
  /\ exists g r tp r',
       (run (updateEventWithScope Demo.handleGoogleApiError Demo.helpers Demo.argsFuture)
            Demo.serviceRejectingInsert []).2
       = [Detected "E1" "primary" (Normal TypeRecurring);
          Called (EventsGet g) (Normal r);
          Called (EventsPatch tp) (Normal r');
          Called (EventsInsert
                    (Demo.insertion "2030-09-01T09:00:00-07:00"
                                    "2030-09-01T16:30:00.000Z"))
                 (Abrupt (Thrown (JStr "503")))].
Proof.
  destruct (failed_insert_not_rolled_back Demo.handleGoogleApiError Demo.helpers
              Demo.argsFuture Demo.serviceRejectingInsert
              (Demo.insertion "2030-09-01T09:00:00-07:00" "2030-09-01T16:30:00.000Z")
              (Abrupt (Thrown (JStr "503"))))
    as ((g & r & tp & r' & rec & Hlog & _ & _) & Hrejected & _).
  - in_list.
  - split; [apply Hrejected; reflexivity|].
    exists g, r, tp, r'. exact Hlog.
Defined.

Lemma truncation_patch_only_recurrence_witness :
  dom (Patch.requestBody Demo.truncation) = {["recurrence"]}
  /\ forall (stored : gmap string JSValue) (k : string),
       k <> "recurrence" ->
       applyPatch stored (Patch.requestBody Demo.truncation) !! k = stored !! k.
Proof.
  destruct (truncation_patch_only_recurrence Demo.handleGoogleApiError Demo.helpers
              Demo.argsFuture (Demo.service TypeRecurring) Demo.truncation
              (Normal {| data := Some (applyPatch Demo.original
                                         (Patch.requestBody Demo.truncation)) |}))
    as (_ & _ & _ & Hdom & Hframe).
  - reflexivity.
  - in_list.
  - split; [exact Hdom|exact Hframe].
Defined.

Lemma sendUpdates_passed_to_mutations_witness :
  Patch.sendUpdates Demo.truncation = Args.sendUpdates Demo.argsFuture.
Proof.
  apply (sendUpdates_passed_to_mutations Demo.handleGoogleApiError Demo.helpers
           Demo.argsFuture (Demo.service TypeRecurring)
           (EventsPatch Demo.truncation)).
  - in_list.
  - reflexivity.
Defined.

(** C7 as stated fails: the fetch of a `future`-scope update is a request of
    the operation and carries no [sendUpdates]. *)
Lemma sendUpdates_counterexample :
  ~ (forall (helpers : RecurringEventHelpers) (args : Args.t) (svc : Service)
            (rq : Request),
       In rq (requests
                (run (updateEventWithScope Demo.handleGoogleApiError helpers args)
                     svc []).2) ->
       carriedSendUpdates rq = Some (Args.sendUpdates args)).
Proof.
  intros claim.
  specialize (claim Demo.helpers Demo.argsFuture (Demo.service TypeRecurring)
                (EventsGet Demo.fetch)).
  assert (Hfetch : In (EventsGet Demo.fetch)
                      (requests
                         (run (updateEventWithScope Demo.handleGoogleApiError
                                 Demo.helpers Demo.argsFuture)
                              (Demo.service TypeRecurring) []).2)) by in_list.
  specialize (claim Hfetch). discriminate claim.
Qed.

Lemma omitted_scope_patches_event_witness :
  Args.modificationScope Demo.argsAll = ScopeAll
  /\ prop Demo.objAll "calendarId" = JStr "primary"
  /\ prop Demo.objAll "eventId" = JStr "E1"
  /\ prop Demo.objAll "sendUpdates" = JStr "none"
  /\ requests
       (run (runTool Demo.handleGoogleApiError IsoDate.parse Demo.now Demo.toString
               Demo.helpers (JObj Demo.objAll))
            (Demo.service TypeSingle) []).2
     = [EventsPatch {| Patch.calendarId := "primary"; Patch.eventId := "E1";
                       Patch.requestBody := {["summary" := JStr "Standup"]};
                       Patch.sendUpdates := Some SendNone |}].
Proof.
  destruct (omitted_scope_patches_event Demo.handleGoogleApiError IsoDate.parse
              Demo.now Demo.toString Demo.objAll Demo.argsAll)
    as (Hscope & (calendarId & eventId & Hcal & Hev & Hsu & Hsent) & _).
  - vm_compute. reflexivity.
  - vm_compute. reflexivity.
  - assert (HcalId : calendarId = "primary")
      by (vm_compute in Hcal; now injection Hcal).
    assert (HevId : eventId = "E1")
      by (vm_compute in Hev; now injection Hev).
    subst calendarId eventId.
    split; [exact Hscope|].
    split; [exact Hcal|]. split; [exact Hev|].
    split; [vm_compute; reflexivity|].
    destruct (Hsent Demo.helpers (Demo.service TypeSingle)) as (_ & Hpatch).
    apply (Hpatch TypeSingle); reflexivity.
Defined.

Lemma defensive_branches_unreachable_witness :
  truthy_str (Args.originalStartTime Demo.argsSingle) = true
  /\ (run (updateEventWithScope Demo.handleGoogleApiError Demo.helpers Demo.argsSingle)
          (Demo.service TypeRecurring) []).1
     <> Raised Here
          (RecurringEventError
             "originalStartTime is required for single instance updates"
             MISSING_ORIGINAL_TIME).
Proof.
  destruct (defensive_branches_unreachable Demo.handleGoogleApiError IsoDate.parse
              Demo.now (JObj Demo.objSingle) Demo.argsSingle)
    as (Hsingle & _ & Hrun).
  - vm_compute. reflexivity.
  - split; [apply Hsingle; reflexivity|].
    apply (Hrun Demo.helpers (Demo.service TypeRecurring)).
Defined.

(** ** The scenarios of the specification *)

(** Scenario A: scope `all` against a series patches the event directly and
    returns what the service answers. *)
Example scenario_all :
  (run (updateEventWithScope Demo.handleGoogleApiError Demo.helpers Demo.argsAll)
       (Demo.service TypeRecurring) []).1
  = Returned (applyPatch Demo.original {["summary" := JStr "Standup"]}).
Proof. vm_compute. reflexivity. Qed.

(** Scenario B: scope `single` patches the instance addressed by the
    identifier that [formatInstanceId] builds, and nothing else. *)
Example scenario_single :
  requests
    (run (updateEventWithScope Demo.handleGoogleApiError Demo.helpers Demo.argsSingle)
         (Demo.service TypeRecurring) []).2
  = [EventsPatch {| Patch.calendarId := "primary";
                    Patch.eventId := "E1_2030-08-15T10:00:00-07:00";
                    Patch.requestBody := ∅;
                    Patch.sendUpdates := None |}].
Proof. vm_compute. reflexivity. Qed.

(** Scenario C: scope `future` fetches, truncates and inserts. *)
Example scenario_future :
  requests
    (run (updateEventWithScope Demo.handleGoogleApiError Demo.helpers Demo.argsFuture)
         (Demo.service TypeRecurring) []).2
  = [EventsGet Demo.fetch;
     EventsPatch Demo.truncation;
     EventsInsert (Demo.insertion "2030-09-01T09:00:00-07:00"
                                  "2030-09-01T16:30:00.000Z")].
Proof. vm_compute. reflexivity. Qed.

(** Scenario D: scope `single` against a standalone event is rejected after
    the classification, before any request. *)
Example scenario_mismatch :
  run (updateEventWithScope Demo.handleGoogleApiError Demo.helpers Demo.argsSingle)
      (Demo.service TypeSingle) []
  = (Raised Here
       (RecurringEventError
          ("Scope other than " ++ dquote ++ "all" ++ dquote
             ++ " only applies to recurring events")
          NON_RECURRING_SCOPE),
     [Detected "E1" "primary" (Normal TypeSingle)]).
Proof. vm_compute. reflexivity. Qed.

(** The reference dates. *)
Example parse_offset :
  IsoDate.parse "2024-09-01T09:00:00-07:00" = Some 1725206400000.
Proof. vm_compute. reflexivity. Qed.

Example parse_clock : IsoDate.parse "2026-11-03T00:00:00Z" = Some Demo.now.
Proof. vm_compute. reflexivity. Qed.

Example parse_day_carried_over :
  IsoDate.parse "2024-02-30T00:00:00Z" = Some 1709251200000
  /\ IsoDate.parse "2024-03-01T00:00:00Z" = Some 1709251200000
  /\ IsoDate.parse "2023-04-31T00:00:00Z" = IsoDate.parse "2023-05-01T00:00:00Z".
Proof. vm_compute. repeat split; reflexivity. Qed.

Example parse_no_such_month : IsoDate.parse "2024-13-01T00:00:00Z" = None.
Proof. vm_compute. reflexivity. Qed.

Example format_instant :
  IsoDate.toISOString 1725206400000 = "2024-09-01T16:00:00.000Z".
Proof. vm_compute. reflexivity. Qed.

(** The schema on the worked commands. *)
Example accepts_future :
  UpdateEventArgumentsSchema IsoDate.parse Demo.now (JObj Demo.objFuture)
  = Some Demo.argsFuture.
Proof. vm_compute. reflexivity. Qed.

Example rejects_single_without_original :
  UpdateEventArgumentsSchema IsoDate.parse Demo.now (JObj Demo.objSingleNoOriginal)
  = None.
Proof. vm_compute. reflexivity. Qed.

(* ===================================================================== *)
(** * Further properties of the code *)
(* ===================================================================== *)

(** ** More on the date-time pattern and the update schema *)

Lemma eat_shape (p : list Regex.atom) (s rest : string) :
  Regex.eat p s = Some rest ->
  String.length s = (length p + String.length rest)%nat
  /\ forall (i : nat) (a : Regex.atom),
       p !! i = Some a ->
       exists c, String.get i s = Some c /\ Regex.atom_ok a c = true.
Proof.
  revert s. induction p as [|a p IH]; intros s H.
  - cbn in H. injection H as ->. split; [reflexivity|]. intros i a [=].
  - destruct s as [|c s]; [discriminate|]. cbn in H.
    destruct (Regex.atom_ok a c) eqn:Hc; [|discriminate].
    destruct (IH _ H) as [Hlen Hat]. split; [cbn; now rewrite Hlen|].
    intros [|i] b Hb; cbn in Hb |- *.
    + injection Hb as <-. now exists c.
    + now apply Hat.
Qed.

Lemma zone_ok_length (rest : string) :
  Regex.zone_ok rest = true ->
  String.length rest = 1%nat \/ String.length rest = 6%nat.
Proof.
  destruct rest as [|c r]; [discriminate|]. cbn [Regex.zone_ok].
  destruct (Ascii.eqb c "Z").
  - destruct r; [now left|discriminate].
  - destruct (Ascii.eqb c "+" || Ascii.eqb c "-"); [|discriminate].
    destruct (Regex.eat Regex.offset_part r) as [[|]|] eqn:He; try discriminate.
    apply eat_shape in He as [Hlen _]. intros _. right. cbn. now rewrite Hlen.
Qed.

(** X1. A string that matches the date-time pattern has seconds precision
    and a zone designator and nothing more: it is 20 characters long (zone
    `Z`) or 25 (a numeric offset), with the separators at their places. *)
Theorem isoDateTimeWithTimezone_shape (s : string) :
  isoDateTimeWithTimezone s = true ->
  (String.length s = 20%nat \/ String.length s = 25%nat)
  /\ String.get 4 s = Some "-"%char
  /\ String.get 7 s = Some "-"%char
  /\ String.get 10 s = Some "T"%char
  /\ String.get 13 s = Some ":"%char
  /\ String.get 16 s = Some ":"%char.
Proof.
  unfold isoDateTimeWithTimezone.
  destruct (Regex.eat Regex.date_time_part s) as [rest|] eqn:He; [|discriminate].
  intros Hz. apply eat_shape in He as [Hlen Hat].
  split.
  - apply zone_ok_length in Hz. cbn in Hlen. lia.
  - assert (Hlit : forall i ch, Regex.date_time_part !! i = Some (Regex.Lit ch) ->
                                String.get i s = Some ch).
    { intros i ch Hi. destruct (Hat i _ Hi) as (c & Hc & Hok).
      cbn in Hok. apply Ascii.eqb_eq in Hok. now subst. }
    repeat split; apply Hlit; reflexivity.
Qed.

Section MoreValidationFacts.

Variable Date_parse : string -> option Z.
Variable now : Z.

(** X2. What the schema lets through: every date-time of an accepted
    command matches the pattern, a `single` command has its
    originalStartTime, a `future` command its futureStartDate, and a
    futureStartDate, whatever the scope, reads as a time strictly after the
    clock. *)
Theorem accepted_command_invariants (raw : JSValue) (a : Args.t) :
  UpdateEventArgumentsSchema Date_parse now raw = Some a ->
  (forall s, Args.start a = Some s -> isoDateTimeWithTimezone s = true)
  /\ (forall s, Args.end_ a = Some s -> isoDateTimeWithTimezone s = true)
  /\ (forall s, Args.originalStartTime a = Some s -> isoDateTimeWithTimezone s = true)
  /\ (forall s, Args.futureStartDate a = Some s ->
        isoDateTimeWithTimezone s = true
        /\ exists t, Date_parse s = Some t /\ now < t)
  /\ (Args.modificationScope a = ScopeSingle -> is_Some (Args.originalStartTime a))
  /\ (Args.modificationScope a = ScopeFuture -> is_Some (Args.futureStartDate a)).
Proof.
  intros Hs. apply schema_Some in Hs as (Hobj & H1 & H2 & H3).
  apply UpdateEventObject_inv in Hobj as (o & _ & _ & Hst & Hen & Host & Hfsd).
  assert (Hpat : forall k v s, z.key o k (z.optional dateTimeString) = Some v ->
                               v = Some s -> isoDateTimeWithTimezone s = true).
  { intros k v s Hk ->. apply key_optional_dateTime in Hk as [[_ [=]]|(s' & _ & [= <-] & H)].
    exact H. }
  split; [eauto|]. split; [eauto|]. split; [eauto|]. split.
  - intros s Hs. split; [eauto|].
    unfold futureStartDateInFuture in H3. rewrite Hs in H3.
    rewrite (truthy_str_dateTime s) in H3 by eauto.
    now apply laterThanNow_true.
  - split; intros Hsc.
    + unfold requireOriginalStartTime in H1. rewrite Hsc in H1.
      destruct (Args.originalStartTime a); [eauto|discriminate].
    + unfold requireFutureStartDate in H2. rewrite Hsc in H2.
      destruct (Args.futureStartDate a); [eauto|discriminate].
Qed.

Lemma accepted_required_strings (raw : JSValue) (a : Args.t) :
  UpdateEventArgumentsSchema Date_parse now raw = Some a ->
  exists o, raw = JObj o
    /\ prop o "calendarId" = JStr (Args.calendarId a)
    /\ prop o "eventId" = JStr (Args.eventId a)
    /\ prop o "timeZone" = JStr (Args.timeZone a).
Proof.
  intros Hs. apply schema_Some in Hs as (Hobj & _).
  apply UpdateEventObject_required in Hobj as (o & -> & ? & ? & ? & _). eauto.
Qed.

(** X3. calendarId, eventId and timeZone are required strings: a request in
    which one of them is missing or is not a string is rejected, whatever
    else it holds, also when it changes neither start nor end. *)
Theorem required_strings (o : gmap string JSValue) (k : string) :
  In k ["calendarId"; "eventId"; "timeZone"] ->
  (forall s, prop o k <> JStr s) ->
  UpdateEventArgumentsSchema Date_parse now (JObj o) = None.
Proof.
  intros Hk Hno.
  destruct (UpdateEventArgumentsSchema Date_parse now (JObj o)) as [a|] eqn:Hs;
    [exfalso|reflexivity].
  apply accepted_required_strings in Hs as (o' & [= <-] & Hc & He & Ht).
  cbn in Hk. destruct Hk as [<-|[<-|[<-|[]]]]; eapply Hno; eauto.
Qed.

(** The keys the update schema reads. *)
Lemma schema_reads_only_shape (o : gmap string JSValue) (k : string) (v : JSValue) :
  ~ In k ["calendarId"; "eventId"; "summary"; "description"; "start"; "end";
          "timeZone"; "attendees"; "location"; "colorId"; "reminders";
          "recurrence"; "modificationScope"; "originalStartTime";
          "futureStartDate"; "sendUpdates"] ->
  UpdateEventObject (JObj (<[k := v]> o)) = UpdateEventObject (JObj o).
Proof.
  intros Hk. cbn in Hk.
  unfold UpdateEventObject, z.object, z.key, prop.
  rewrite !lookup_insert_ne by (intros ->; apply Hk; tauto).
  reflexivity.
Qed.

(** X4. A property outside the sixteen the schema declares is ignored: it
    changes neither whether the request is accepted nor the command it is
    parsed to. *)
Theorem unknown_property_ignored (o : gmap string JSValue) (k : string) (v : JSValue) :
  ~ In k ["calendarId"; "eventId"; "summary"; "description"; "start"; "end";
          "timeZone"; "attendees"; "location"; "colorId"; "reminders";
          "recurrence"; "modificationScope"; "originalStartTime";
          "futureStartDate"; "sendUpdates"] ->
  UpdateEventArgumentsSchema Date_parse now (JObj (<[k := v]> o))
  = UpdateEventArgumentsSchema Date_parse now (JObj o).
Proof.
  intros Hk. unfold UpdateEventArgumentsSchema, z.refine.
  now rewrite (schema_reads_only_shape o k v Hk).
Qed.

End MoreValidationFacts.

(** ** More on the handler *)

Set Warnings "-clear-no-such-hyp".

Section MoreHandlerFacts.

Variable handleGoogleApiError : Exn -> Exn.

(** X5. When the classification of the target fails, nothing is sent to the
    service, and the caller receives the failure itself when it is a
    RecurringEventError and its image under handleGoogleApiError otherwise. *)
Theorem classification_failure (helpers : RecurringEventHelpers) (args : Args.t)
    (svc : Service) (e : Exn) :
  detect svc [] (Args.eventId args) (Args.calendarId args) = Abrupt e ->
  run (updateEventWithScope handleGoogleApiError helpers args) svc []
  = (Raised Below
       (match e with
        | RecurringEventError _ _ => e
        | _ => handleGoogleApiError e
        end),
     [Detected (Args.eventId args) (Args.calendarId args) (Abrupt e)]).
Proof.
  intros Hdet. unfold updateEventWithScope. cbn [run]. rewrite Hdet.
  destruct e; reflexivity.
Qed.

(** X6. A rejection by the service, of the fetch, of a patch or of the
    insertion, reaches the caller as it is: the strategies run outside the
    catch clause, so handleGoogleApiError is never applied to it. *)
Theorem service_rejection_unmapped (helpers : RecurringEventHelpers) (args : Args.t)
    (svc : Service) (rq : Request) (e : Exn) :
  In (Called rq (Abrupt e))
     (run (updateEventWithScope handleGoogleApiError helpers args) svc []).2 ->
  (run (updateEventWithScope handleGoogleApiError helpers args) svc []).1
  = Raised Below e.
Proof.
  unfold updateEventWithScope, updateSingleInstance, updateAllInstances,
    updateFutureInstances.
  destruct (Args.modificationScope args).
  all: run_cases.
  all: intros Hin; log_cases Hin; reflexivity.
Qed.

(** X7. The requests of one update: none, or one patch (scopes `single` and
    `all`), or, for scope `future`, the fetch, then the truncation patch,
    then the insertion, stopping at the first step that fails.  No other
    request is ever sent, and none after the insertion. *)
Theorem request_sequence (helpers : RecurringEventHelpers) (args : Args.t)
    (svc : Service) :
  let sent := requests (run (updateEventWithScope handleGoogleApiError helpers args)
                            svc []).2 in
  sent = []
  \/ (exists p, sent = [EventsPatch p] /\ Args.modificationScope args <> ScopeFuture)
  \/ (Args.modificationScope args = ScopeFuture
      /\ exists g, sent = [EventsGet g]
                   \/ exists tp, sent = [EventsGet g; EventsPatch tp]
                                 \/ exists ins, sent = [EventsGet g; EventsPatch tp;
                                                        EventsInsert ins]).
Proof.
  cbv zeta.
  unfold updateEventWithScope, updateSingleInstance, updateAllInstances,
    updateFutureInstances.
  destruct (Args.modificationScope args) eqn:Hsc.
  all: run_cases.
  all: first
         [ left; reflexivity
         | right; left; eexists; split; [reflexivity|discriminate]
         | right; right; split; [reflexivity|]; eexists;
           first [ left; reflexivity
                 | right; eexists;
                   first [left; reflexivity | right; eexists; reflexivity] ] ].
Qed.

(** X8. A `single`-scope update addresses the instance and nothing else: any
    request it sends is the patch whose event identifier is what
    formatInstanceId returns for the event identifier and the
    originalStartTime, with the body built from the command. *)
Theorem single_scope_patches_instance (helpers : RecurringEventHelpers)
    (args : Args.t) (svc : Service) (rq : Request) :
  Args.modificationScope args = ScopeSingle ->
  In rq (requests (run (updateEventWithScope handleGoogleApiError helpers args)
                       svc []).2) ->
  exists originalStartTime instanceId body,
    Args.originalStartTime args = Some originalStartTime
    /\ formatInstanceId helpers (Args.eventId args) originalStartTime
       = Normal instanceId
    /\ buildUpdateRequestBody helpers args = Normal body
    /\ rq = EventsPatch {| Patch.calendarId := Args.calendarId args;
                           Patch.eventId := instanceId;
                           Patch.requestBody := body;
                           Patch.sendUpdates := Args.sendUpdates args |}.
Proof.
  intros Hsc. unfold updateEventWithScope, updateSingleInstance. rewrite Hsc.
  run_cases.
  all: intros Hin; cbn in Hin; try contradiction.
  all: destruct Hin as [<-|[]].
  all: match goal with
       | H : negb (truthy_str (Args.originalStartTime _)) = false |- _ =>
           apply negb_false_iff, truthy_str_Some_nonempty in H as (ost & Host & _)
       end.
  all: rewrite Host in *; cbn [narrowed default id] in *.
  all: exists ost; do 2 eexists; repeat split; eauto.
Qed.

(** X9. What an update returns is the data of the answer to its last
    request: of the patch for scopes `single` and `all`, and of the
    insertion, not of the truncation patch, for scope `future`. *)
Theorem returned_event (helpers : RecurringEventHelpers) (args : Args.t)
    (svc : Service) (event : gmap string JSValue) :
  (run (updateEventWithScope handleGoogleApiError helpers args) svc []).1
  = Returned event ->
  exists rq r,
    last (run (updateEventWithScope handleGoogleApiError helpers args) svc []).2
    = Some (Called rq (Normal r))
    /\ data r = Some event
    /\ match Args.modificationScope args with
       | ScopeFuture => exists p, rq = EventsInsert p
       | _ => exists p, rq = EventsPatch p
       end.
Proof.
  unfold updateEventWithScope, updateSingleInstance, updateAllInstances,
    updateFutureInstances.
  destruct (Args.modificationScope args).
  all: run_cases.
  all: intros [=]; subst.
  all: do 2 eexists; split; [reflexivity|]; split; [eassumption|]; eauto.
Qed.

(** X10. When the event fetched for a `future`-scope update has no
    repeat rules (the property is missing, null or an empty string), the
    update stops with "Event does not have recurrence rules" and the fetch is
    the only request: nothing is modified. *)
Theorem future_scope_without_rules (helpers : RecurringEventHelpers) (args : Args.t)
    (svc : Service) (g : Get.params) (r : Response)
    (originalEvent : gmap string JSValue) :
  In (Called (EventsGet g) (Normal r))
     (run (updateEventWithScope handleGoogleApiError helpers args) svc []).2 ->
  data r = Some originalEvent ->
  truthy (prop originalEvent "recurrence") = false ->
  (run (updateEventWithScope handleGoogleApiError helpers args) svc []).1
  = Raised Here (Error "Event does not have recurrence rules")
  /\ requests (run (updateEventWithScope handleGoogleApiError helpers args) svc []).2
     = [EventsGet g].
Proof.
  unfold updateEventWithScope, updateSingleInstance, updateAllInstances,
    updateFutureInstances.
  destruct (Args.modificationScope args).
  all: run_cases.
  all: intros Hin Hdata Hfalsy; log_cases Hin.
  all: try (split; reflexivity).
  all: exfalso.
  all: match goal with
       | H1 : data ?r = Some ?a, H2 : data ?r = Some ?b |- _ =>
           assert (a = b) by congruence; subst
       | H1 : data ?r = None, H2 : data ?r = Some _ |- _ => congruence
       end.
  all: match goal with
       | H : negb (truthy ?x) = false, H' : truthy ?x = false |- _ =>
           rewrite H' in H; discriminate H
       end.
Qed.

(** X11. The defensive test is a truthiness test: a fetched event whose
    repeat rules are an array, the empty one included, passes it, and the
    rule rewriting and the truncation patch go ahead on it. *)
Theorem future_scope_with_any_rule_list (helpers : RecurringEventHelpers)
    (args : Args.t) (svc : Service) (g : Get.params) (r : Response)
    (originalEvent : gmap string JSValue) (rules : list JSValue)
    (untilDate : string) (updatedRecurrence : JSValue) :
  In (Called (EventsGet g) (Normal r))
     (run (updateEventWithScope handleGoogleApiError helpers args) svc []).2 ->
  data r = Some originalEvent ->
  prop originalEvent "recurrence" = JArr rules ->
  calculateUntilDate helpers (narrowed (Args.futureStartDate args)) = Normal untilDate ->
  updateRecurrenceWithUntil helpers (JArr rules) untilDate = Normal updatedRecurrence ->
  In (EventsPatch {| Patch.calendarId := Args.calendarId args;
                     Patch.eventId := Args.eventId args;
                     Patch.requestBody := {["recurrence" := updatedRecurrence]};
                     Patch.sendUpdates := Args.sendUpdates args |})
     (requests (run (updateEventWithScope handleGoogleApiError helpers args) svc []).2).
Proof.
  unfold updateEventWithScope, updateSingleInstance, updateAllInstances,
    updateFutureInstances.
  destruct (Args.modificationScope args).
  all: run_cases.
  all: intros Hin Hdata Hrules Huntil Hrewrite; log_cases Hin.
  all: match goal with
       | H1 : data ?r = Some ?a, H2 : data ?r = Some ?b |- _ =>
           assert (a = b) by congruence; subst
       | H1 : data ?r = None, H2 : data ?r = Some _ |- _ => congruence
       | _ => idtac
       end.
  all: rewrite ?Hrules in *.
  all: try match goal with
           | H : negb (truthy (JArr _)) = true |- _ => discriminate H
           end.
  all: try congruence.
  all: cbn.
  all: match goal with
       | H1 : updateRecurrenceWithUntil _ _ ?u = Normal ?a,
         H2 : updateRecurrenceWithUntil _ _ ?u' = Normal ?b |- _ =>
           assert (u = u') by congruence; subst;
           assert (a = b) by congruence; subst
       end.
  all: tauto.
Qed.

(** X12. The request body is built only after the truncation patch has been
    accepted: when building it throws in a `future`-scope update, the caller
    receives that exception while the original series is already truncated
    and no insertion is sent. *)
Theorem body_failure_after_truncation (helpers : RecurringEventHelpers)
    (args : Args.t) (svc : Service) (tp : Patch.params) (r : Response) (e : Exn) :
  Args.modificationScope args = ScopeFuture ->
  buildUpdateRequestBody helpers args = Abrupt e ->
  In (Called (EventsPatch tp) (Normal r))
     (run (updateEventWithScope handleGoogleApiError helpers args) svc []).2 ->
  (run (updateEventWithScope handleGoogleApiError helpers args) svc []).1
  = Raised Below e
  /\ exists g,
       requests (run (updateEventWithScope handleGoogleApiError helpers args) svc []).2
       = [EventsGet g; EventsPatch tp].
Proof.
  intros Hsc Hbody. unfold updateEventWithScope, updateFutureInstances.
  rewrite Hsc, Hbody.
  run_cases.
  all: intros Hin; log_cases Hin.
  all: split; [reflexivity|eexists; reflexivity].
Qed.

(** X13. The event inserted by a `future`-scope update takes each property
    other than start and end from the request body built from the command
    when it has it and from the cleaned copy of the original otherwise; a
    start or end in either of them is replaced by the computed one. *)
Theorem inserted_event_properties (helpers : RecurringEventHelpers) (args : Args.t)
    (svc : Service) (p : Insert.params) (ans : Completion Response) :
  In (Called (EventsInsert p) ans)
     (run (updateEventWithScope handleGoogleApiError helpers args) svc []).2 ->
  exists g r originalEvent cleaned requestBody,
    In (Called (EventsGet g) (Normal r))
       (run (updateEventWithScope handleGoogleApiError helpers args) svc []).2
    /\ data r = Some originalEvent
    /\ cleanEventForDuplication helpers originalEvent = Normal cleaned
    /\ buildUpdateRequestBody helpers args = Normal requestBody
    /\ (forall k, k <> "start" -> k <> "end" ->
          Insert.requestBody p !! k
          = match requestBody !! k with
            | Some v => Some v
            | None => cleaned !! k
            end)
    /\ dom (Insert.requestBody p)
       = {["start"; "end"]} ∪ dom requestBody ∪ dom cleaned.
Proof.
  unfold updateEventWithScope, updateSingleInstance, updateAllInstances,
    updateFutureInstances.
  destruct (Args.modificationScope args).
  all: run_cases.
  all: intros Hin; log_cases Hin.
  all: do 5 eexists; split; [cbn; eauto|]; split; [eassumption|].
  all: split; [eassumption|]; split; [reflexivity|].
  all: cbn [Insert.requestBody]; unfold newEventBody; split.
  all: try (intros k Hs He;
            rewrite !lookup_insert_ne by congruence;
            rewrite lookup_union;
            destruct (_ !! k), (_ !! k); reflexivity).
  all: rewrite !dom_insert_L, dom_union_L; set_solver.
Qed.

Lemma run_bind {A B} (p : Async A) (f : A -> Async B) (svc : Service)
    (log : list Entry) :
  run (p ≫= f) svc log
  = match run p svc log with
    | (Returned a, log') => run (f a) svc log'
    | (Raised o e, log') => (Raised o e, log')
    end.
Proof.
  revert log. induction p as [a|o e|ev cal k IHk h IHh|rq k IHk h IHh]; intros log.
  - reflexivity.
  - reflexivity.
  - cbn [mbind Async_mbind bind run].
    destruct (detect svc log ev cal); [apply IHk|apply IHh].
  - cbn [mbind Async_mbind bind run].
    destruct (respond svc log rq); [apply IHk|apply IHh].
Qed.

Variable Date_parse : string -> option Z.
Variable now : Z.
Variable ToString : JSValue -> string.

(** X14. The tool entry point validates before anything else and adds
    nothing of its own to what follows: a request the schema rejects ends in
    the validation error without a single call, and an accepted one sends
    exactly the calls of the scope resolver, passes its failure on as it is,
    and answers a success with the text built from the summary and the
    identifier of the event returned. *)
Theorem runTool_behaviour (helpers : RecurringEventHelpers) (raw : JSValue)
    (svc : Service) :
  match UpdateEventArgumentsSchema Date_parse now raw with
  | None =>
      run (runTool handleGoogleApiError Date_parse now ToString helpers raw) svc []
      = (Raised Here ZodError, [])
  | Some validArgs =>
      (run (runTool handleGoogleApiError Date_parse now ToString helpers raw) svc []).2
      = (run (updateEventWithScope handleGoogleApiError helpers validArgs) svc []).2
      /\ (run (runTool handleGoogleApiError Date_parse now ToString helpers raw) svc []).1
         = match (run (updateEventWithScope handleGoogleApiError helpers validArgs)
                      svc []).1 with
           | Returned event =>
               Returned {| content := [ {|
                 type_ := "text";
                 text := "Event updated: " ++ ToString (prop event "summary")
                           ++ " (" ++ ToString (prop event "id") ++ ")" |} ] |}
           | Raised o e => Raised o e
           end
  end.
Proof.
  unfold runTool.
  destruct (UpdateEventArgumentsSchema Date_parse now raw) as [validArgs|];
    [|reflexivity].
  rewrite run_bind.
  destruct (run (updateEventWithScope handleGoogleApiError helpers validArgs) svc [])
    as [[event|o e] log]; split; reflexivity.
Qed.

(** X15. No default is filled in for sendUpdates: when the request leaves it
    out, every patch and insertion sent for it carries no sendUpdates
    value. *)
Theorem omitted_sendUpdates_stays_absent (helpers : RecurringEventHelpers)
    (o : gmap string JSValue) (svc : Service) (rq : Request)
    (su : option SendUpdates) :
  prop o "sendUpdates" = JUndefined ->
  In rq (requests (run (runTool handleGoogleApiError Date_parse now ToString
                          helpers (JObj o)) svc []).2) ->
  carriedSendUpdates rq = Some su ->
  su = None.
Proof.
  intros Hkey. unfold runTool.
  destruct (UpdateEventArgumentsSchema Date_parse now (JObj o)) as [a|] eqn:Hs;
    [|intros []].
  assert (Hnone : Args.sendUpdates a = None).
  { apply schema_Some in Hs as (Hobj & _).
    apply UpdateEventObject_required in Hobj as (o' & [= <-] & _ & _ & _ & Hsu).
    eapply key_optional_sendUpdates; eauto. }
  rewrite run_bind.
  destruct (run (updateEventWithScope handleGoogleApiError helpers a) svc [])
    as [[event|oe e] log] eqn:Hrun; cbn [run fst snd].
  all: assert (Hlog : log = (run (updateEventWithScope handleGoogleApiError helpers a)
                                 svc []).2) by (rewrite Hrun; reflexivity).
  all: rewrite Hlog; clear Hrun Hlog; rewrite <- Hnone; revert rq su.
  all: unfold updateEventWithScope, updateSingleInstance, updateAllInstances,
         updateFutureInstances.
  all: destruct (Args.modificationScope a).
  all: run_cases.
  all: intros rq su Hin Hc; cbn in Hin; intuition (subst; cbn in Hc; congruence).
Qed.

End MoreHandlerFacts.

(** ** The list, search and create schemas *)

Lemma remove_dups_length_le (l : list string) :
  (length (remove_dups l) <= length l)%nat.
Proof.
  induction l as [|x l IH]; cbn; [lia|].
  destruct (decide_rel elem_of x l); cbn; lia.
Qed.

Lemma allDistinct_NoDup (ids : list string) :
  allDistinct ids = true <-> NoDup ids.
Proof.
  unfold allDistinct. rewrite Nat.eqb_eq. split.
  - induction ids as [|x l IH]; cbn; [constructor|].
    destruct (decide_rel elem_of x l) as [Hin|Hin]; cbn.
    + pose proof (remove_dups_length_le l). lia.
    + intros [= H]. constructor; auto.
  - induction 1 as [|x l Hx Hl IH]; cbn; [reflexivity|].
    destruct (decide_rel elem_of x l); [contradiction|]. cbn. now rewrite IH.
Qed.

Lemma nonempty_string_Some (v : JSValue) (s : string) :
  zod.nonempty z.string v = Some s <-> v = JStr s /\ s <> EmptyString.
Proof.
  unfold zod.nonempty, z.string. split.
  - destruct v; cbn; try discriminate.
    destruct s0; cbn; [discriminate|]. intros [= <-]. split; [reflexivity|discriminate].
  - intros [-> Hs]. cbn. destruct s; [contradiction|reflexivity].
Qed.

Section ListEventsFacts.

Variable JSON_parse : string -> option JSValue.
Variable Date_parse : string -> option Z.

(** What the union under calendarId accepts, after the preprocessing. *)
Lemma calendarId_union (v : JSValue) (c : string + list string) :
  zod.union (zod.nonempty z.string)
    (z.refine (zod.sized 1 50 (z.array (zod.nonempty z.string))) allDistinct) v
  = Some c ->
  match c with
  | inl id => v = JStr id /\ id <> EmptyString
  | inr ids =>
      v = JArr (JStr <$> ids)
      /\ NoDup ids /\ (1 <= length ids <= 50)%nat
      /\ Forall (fun id => id <> EmptyString) ids
  end.
Proof.
  unfold zod.union.
  destruct (zod.nonempty z.string v) as [id|] eqn:Hid.
  - intros [= <-]. now apply nonempty_string_Some.
  - intros H. apply fmap_Some in H as (ids & H & ->).
    apply refine_Some in H as [H Hdistinct].
    unfold zod.sized in H. apply bind_Some in H as (l & Harr & H).
    destruct ((1 <=? length l)%nat && (length l <=? 50)%nat) eqn:Hsize;
      [|discriminate].
    injection H as ->.
    apply andb_true_iff in Hsize as [Hlo Hhi].
    apply Nat.leb_le in Hlo, Hhi.
    unfold z.array in Harr. destruct v as [| | | | |l|]; try discriminate.
    apply mapM_Some in Harr.
    assert (Hall : l = JStr <$> ids /\ Forall (fun id => id <> EmptyString) ids).
    { clear -Harr. induction Harr as [|x id l ids Hx _ [IH1 IH2]].
      - split; [reflexivity|constructor].
      - apply nonempty_string_Some in Hx as [-> Hne].
        split; [cbn; now rewrite IH1|now constructor]. }
    destruct Hall as [-> Hne].
    split; [reflexivity|]. split; [now apply allDistinct_NoDup|].
    split; [lia|exact Hne].
Qed.

Lemma ListEventsObject_inv (raw : JSValue) (a : ListArgs.t) :
  ListEventsObject JSON_parse raw = Some a ->
  exists o, raw = JObj o
    /\ z.key o "calendarId" (calendarIdSchema JSON_parse) = Some (ListArgs.calendarId a)
    /\ z.key o "timeMin" (z.optional dateTimeString) = Some (ListArgs.timeMin a)
    /\ z.key o "timeMax" (z.optional dateTimeString) = Some (ListArgs.timeMax a).
Proof.
  unfold ListEventsObject, z.object.
  destruct raw as [| |b|n|s|l|o]; try discriminate.
  intros H. exists o. split; [reflexivity|].
  repeat (apply bind_Some in H; destruct H as (? & ? & H)).
  injection H as <-. cbn. auto.
Qed.

(** X16. The calendars of an accepted list request: one non-empty
    identifier, or between 1 and 50 identifiers, each non-empty and no two
    equal. *)
Theorem listed_calendars_invariant (raw : JSValue) (a : ListArgs.t) :
  ListEventsArgumentsSchema JSON_parse Date_parse raw = Some a ->
  match ListArgs.calendarId a with
  | inl id => id <> EmptyString
  | inr ids =>
      NoDup ids /\ (1 <= length ids <= 50)%nat
      /\ Forall (fun id => id <> EmptyString) ids
  end.
Proof.
  intros H. apply refine_Some in H as [H _].
  apply ListEventsObject_inv in H as (o & _ & Hc & _).
  unfold z.key, calendarIdSchema, zod.preprocess in Hc.
  apply calendarId_union in Hc.
  destruct (ListArgs.calendarId a); tauto.
Qed.

(** X17. When an accepted list request has both timeMin and timeMax, both
    read as times and timeMin is strictly before timeMax; a bound that
    matches the pattern but is no date (NaN) is rejected with it. *)
Theorem listed_range_ordered (raw : JSValue) (a : ListArgs.t)
    (timeMin timeMax : string) :
  ListEventsArgumentsSchema JSON_parse Date_parse raw = Some a ->
  ListArgs.timeMin a = Some timeMin ->
  ListArgs.timeMax a = Some timeMax ->
  exists t1 t2,
    Date_parse timeMin = Some t1 /\ Date_parse timeMax = Some t2 /\ t1 < t2.
Proof.
  intros H Hmin Hmax. apply refine_Some in H as [H Hrange].
  apply ListEventsObject_inv in H as (o & _ & _ & Hkmin & Hkmax).
  rewrite Hmin in Hkmin. rewrite Hmax in Hkmax.
  apply key_optional_dateTime in Hkmin as [[_ [=]]|(s1 & _ & [= <-] & Hp1)].
  apply key_optional_dateTime in Hkmax as [[_ [=]]|(s2 & _ & [= <-] & Hp2)].
  unfold timeMinBeforeTimeMax in Hrange. rewrite Hmin, Hmax in Hrange.
  rewrite !truthy_str_dateTime in Hrange by assumption.
  cbn [andb narrowed default id] in Hrange. unfold dateBefore in Hrange.
  destruct (Date_parse timeMin) as [t1|]; [|discriminate].
  destruct (Date_parse timeMax) as [t2|]; [|discriminate].
  apply Z.ltb_lt in Hrange. eauto.
Qed.

(** X18. A calendarId string in square brackets: when it does not parse as
    JSON it is taken as one identifier, brackets included; when it parses, the
    parsed value replaces it, so that a text which parses to anything but a
    list of strings is rejected although the text itself is a non-empty
    string. *)
Theorem bracketed_calendarId (o : gmap string JSValue) (s : string) :
  prop o "calendarId" = JStr s ->
  startsWith "["%char s = true ->
  endsWith "]"%char s = true ->
  prop o "timeMin" = JUndefined ->
  prop o "timeMax" = JUndefined ->
  (JSON_parse s = None ->
   ListEventsArgumentsSchema JSON_parse Date_parse (JObj o)
   = Some {| ListArgs.calendarId := inl s;
             ListArgs.timeMin := None; ListArgs.timeMax := None |})
  /\ (forall parsed,
        JSON_parse s = Some parsed ->
        (forall ids, parsed <> JArr (JStr <$> ids)) ->
        (forall id, parsed <> JStr id) ->
        ListEventsArgumentsSchema JSON_parse Date_parse (JObj o) = None).
Proof.
  intros Hc Hopen Hclose Hmin Hmax.
  assert (Hne : s <> EmptyString) by (intros ->; discriminate Hopen).
  split.
  - intros Hparse.
    unfold ListEventsArgumentsSchema, z.refine, ListEventsObject, z.object, z.key.
    rewrite Hc, Hmin, Hmax.
    unfold calendarIdSchema, zod.preprocess, calendarIdPreprocess.
    rewrite Hopen, Hclose, Hparse. cbn [andb].
    unfold zod.union.
    rewrite (proj2 (nonempty_string_Some (JStr s) s)) by auto.
    reflexivity.
  - intros parsed Hparse Hnolist Hnostring.
    destruct (ListEventsArgumentsSchema JSON_parse Date_parse (JObj o)) as [a|] eqn:Hs;
      [exfalso|reflexivity].
    apply refine_Some in Hs as [Hs _].
    apply ListEventsObject_inv in Hs as (o' & [= <-] & Hk & _).
    unfold z.key, calendarIdSchema, zod.preprocess, calendarIdPreprocess in Hk.
    rewrite Hc, Hopen, Hclose, Hparse in Hk. cbn [andb] in Hk.
    apply calendarId_union in Hk.
    destruct (ListArgs.calendarId a) as [id|ids].
    + destruct Hk as [Hk _]. now apply (Hnostring id).
    + destruct Hk as [Hk _]. now apply (Hnolist ids).
Qed.

End ListEventsFacts.

(** X19. The create schema never compares start with end: exchanging the two
    in an accepted request gives an accepted request, so an event that ends
    before it starts passes validation. *)
Theorem create_accepts_either_order (o : gmap string JSValue) (a : CreateArgs.t) :
  CreateEventArgumentsSchema (JObj o) = Some a ->
  exists a',
    CreateEventArgumentsSchema (JObj (swapped "start" "end" o)) = Some a'
    /\ CreateArgs.start a' = CreateArgs.end_ a
    /\ CreateArgs.end_ a' = CreateArgs.start a.
Proof.
  unfold CreateEventArgumentsSchema, z.object. intros H.
  repeat (apply bind_Some in H; destruct H as (? & ? & H)).
  injection H as <-.
  unfold z.key, swapped in *.
  assert (Hget : forall k, k <> "start" -> k <> "end" ->
            prop (<["start" := prop o "end"]> (<["end" := prop o "start"]> o)) k
            = prop o k).
  { intros k Hk1 Hk2. unfold prop at 1. now rewrite !lookup_insert_ne by congruence. }
  assert (Hs : prop (<["start" := prop o "end"]> (<["end" := prop o "start"]> o)) "start"
               = prop o "end").
  { unfold prop at 1. now rewrite lookup_insert_eq. }
  assert (He : prop (<["start" := prop o "end"]> (<["end" := prop o "start"]> o)) "end"
               = prop o "start").
  { unfold prop at 1. rewrite lookup_insert_ne by discriminate.
    now rewrite lookup_insert_eq. }
  rewrite Hs, He, !Hget by discriminate.
  repeat match goal with
         | H : ?t = Some _ |- _ => rewrite H; clear H
         end.
  cbn. eexists. split; [reflexivity|]. split; reflexivity.
Qed.

(** X20. Unlike the list schema, the search schema does not order its time
    bounds: exchanging timeMin and timeMax in an accepted search request
    gives an accepted request. *)
Theorem search_accepts_either_order (o : gmap string JSValue) (a : SearchArgs.t) :
  SearchEventsArgumentsSchema (JObj o) = Some a ->
  exists a',
    SearchEventsArgumentsSchema (JObj (swapped "timeMin" "timeMax" o)) = Some a'
    /\ SearchArgs.timeMin a' = SearchArgs.timeMax a
    /\ SearchArgs.timeMax a' = SearchArgs.timeMin a.
Proof.
  unfold SearchEventsArgumentsSchema, z.object. intros H.
  repeat (apply bind_Some in H; destruct H as (? & ? & H)).
  injection H as <-.
  unfold z.key, swapped in *.
  assert (Hget : forall k, k <> "timeMin" -> k <> "timeMax" ->
            prop (<["timeMin" := prop o "timeMax"]> (<["timeMax" := prop o "timeMin"]> o)) k
            = prop o k).
  { intros k Hk1 Hk2. unfold prop at 1. now rewrite !lookup_insert_ne by congruence. }
  assert (Hs : prop (<["timeMin" := prop o "timeMax"]>
                       (<["timeMax" := prop o "timeMin"]> o)) "timeMin"
               = prop o "timeMax").
  { unfold prop at 1. now rewrite lookup_insert_eq. }
  assert (He : prop (<["timeMin" := prop o "timeMax"]>
                       (<["timeMax" := prop o "timeMin"]> o)) "timeMax"
               = prop o "timeMin").
  { unfold prop at 1. rewrite lookup_insert_ne by discriminate.
    now rewrite lookup_insert_eq. }
  rewrite Hs, He, !Hget by discriminate.
  repeat match goal with
         | H : ?t = Some _ |- _ => rewrite H; clear H
         end.
  cbn. eexists. split; [reflexivity|]. split; reflexivity.
Qed.

(** ** The event list formatter *)

Lemma string_app_cons (x : ascii) (a b : string) :
  String x a ++ b = String x (a ++ b).
Proof. reflexivity. Qed.

Lemma string_app_nil (b : string) : EmptyString ++ b = b.
Proof. reflexivity. Qed.

Lemma string_app_assoc (a b c : string) : (a ++ b) ++ c = a ++ (b ++ c).
Proof.
  induction a as [|x a IH]; [reflexivity|].
  rewrite !string_app_cons. now rewrite IH.
Qed.

Lemma string_app_length (a b : string) :
  String.length (a ++ b) = (String.length a + String.length b)%nat.
Proof.
  induction a as [|x a IH]; [reflexivity|].
  rewrite string_app_cons. cbn [String.length]. now rewrite IH.
Qed.

Lemma string_app_cancel (a b c : string) : a ++ b = a ++ c -> b = c.
Proof.
  induction a as [|x a IH]; [rewrite !string_app_nil; auto|].
  rewrite !string_app_cons. intros [= H]. auto.
Qed.

Lemma concat_cons (sep x : string) (l : list string) :
  l <> [] -> String.concat sep (x :: l) = x ++ sep ++ String.concat sep l.
Proof. destruct l; [contradiction|reflexivity]. Qed.

Lemma concat_app (sep : string) (l1 l2 : list string) :
  l1 <> [] -> l2 <> [] ->
  String.concat sep (l1 ++ l2) = String.concat sep l1 ++ sep ++ String.concat sep l2.
Proof.
  intros H1 H2. induction l1 as [|x l1 IH]; [contradiction|].
  destruct l1 as [|y l1].
  - cbn [app]. now rewrite concat_cons.
  - change ((x :: y :: l1) ++ l2)%list with (x :: (y :: l1) ++ l2)%list.
    rewrite concat_cons by discriminate.
    rewrite IH by discriminate.
    rewrite (concat_cons sep x (y :: l1)) by discriminate.
    now rewrite !string_app_assoc.
Qed.

Section FormatterFacts.

Variable ToString : JSValue -> string.

(** X21. The text of a list of events is the texts of its parts joined by
    one line feed: for two non-empty lists one after the other it is the text
    of the first, a line feed, and the text of the second. *)
Theorem formatEventList_app (events1 events2 : list Cal.Event) :
  events1 <> [] -> events2 <> [] ->
  formatEventList ToString (events1 ++ events2)%list
  = formatEventList ToString events1 ++ nl ++ formatEventList ToString events2.
Proof.
  intros H1 H2. unfold formatEventList. rewrite map_app.
  apply concat_app.
  - destruct events1; [contradiction|discriminate].
  - destruct events2; [contradiction|discriminate].
Qed.

Lemma formatReminder_length (r : Cal.EventReminder) :
  (15 <= String.length (formatReminder ToString r))%nat.
Proof.
  unfold formatReminder. rewrite !string_app_length. cbn. lia.
Qed.

Lemma joined_reminders_length (rs : list Cal.EventReminder) :
  rs <> [] ->
  (15 <= String.length (String.concat ", " (map (formatReminder ToString) rs)))%nat.
Proof.
  destruct rs as [|r rs]; [contradiction|]. intros _.
  destruct rs as [|r' rs].
  - apply formatReminder_length.
  - change (map (formatReminder ToString) (r :: r' :: rs))
      with (formatReminder ToString r :: map (formatReminder ToString) (r' :: rs)).
    rewrite concat_cons by discriminate.
    rewrite string_app_length. pose proof (formatReminder_length r). lia.
Qed.

(** X22. The reminders line reads "None" exactly when the event has reminder
    settings that neither use the default nor list an override (the list is
    missing or empty). *)
Theorem reminders_none (event : Cal.Event) (r : Cal.EventReminders) :
  Cal.reminders event = Some r ->
  (reminderInfo ToString event = nl ++ "Reminders: None"
   <-> default false (Cal.useDefault r) = false
       /\ default [] (Cal.overrides r) = []).
Proof.
  intros Hr. unfold reminderInfo. rewrite Hr.
  destruct (default false (Cal.useDefault r)).
  - split; [|intros [[=] _]]. intros H. apply string_app_cancel in H.
    discriminate H.
  - destruct (default [] (Cal.overrides r)) as [|x rs] eqn:Hov.
    + split; [auto|]. intros _. reflexivity.
    + split; [|intros [_ [=]]]. intros H. exfalso.
      pose proof (joined_reminders_length (x :: rs) ltac:(discriminate)) as Hlen.
      destruct (String.concat ", " (map (formatReminder ToString) (x :: rs)))
        as [|c joined] eqn:Hj; [cbn in Hlen; lia|].
      cbn [string_nonempty] in H.
      apply string_app_cancel in H.
      change ("Reminders: " ++ String c joined = "Reminders: " ++ "None") in H.
      apply string_app_cancel in H. rewrite H in Hlen. cbn in Hlen. lia.
Qed.

Lemma find_first (f : Cal.EntryPoint -> bool) (before after : list Cal.EntryPoint)
    (ep : Cal.EntryPoint) :
  (forall x, In x before -> f x = false) ->
  f ep = true ->
  List.find f (before ++ ep :: after)%list = Some ep.
Proof.
  intros Hb Hep. induction before as [|x before IH]; cbn.
  - now rewrite Hep.
  - rewrite (Hb x) by now left. apply IH. intros y Hy. apply Hb. now right.
Qed.

(** X23. The meeting link is taken from the first entry point of type
    `video` only: the line shows its uri, and when that entry point has no
    uri there is no line at all, whatever the entry points after it are. *)
Theorem meetLink_first_video (event : Cal.Event)
    (before after : list Cal.EntryPoint) (ep : Cal.EntryPoint) :
  Cal.conferenceData event
  = Some {| Cal.entryPoints := Some (before ++ ep :: after)%list |} ->
  (forall x, In x before -> Cal.entryPointType x <> Some "video") ->
  Cal.entryPointType ep = Some "video" ->
  meetLink event
  = if truthy_str (Cal.uri ep)
    then nl ++ "Google Meet: " ++ narrowed (Cal.uri ep)
    else EmptyString.
Proof.
  intros Hc Hb Hep.
  assert (Hv : videoUri event = Cal.uri ep).
  { unfold videoUri. rewrite Hc. cbn.
    rewrite (find_first _ before after ep); [reflexivity| |].
    - intros x Hx. apply bool_decide_eq_false. now apply Hb.
    - now apply bool_decide_eq_true. }
  unfold meetLink. now rewrite Hv.
Qed.

End FormatterFacts.

(** X24. The end-time projection is consulted only by a `future`-scope
    update whose command gives no end: for scopes `single` and `all`, and
    whenever the command supplies an end, the whole run, requests and result,
    is the same for every implementation of calculateEndTime, one that throws
    included. *)
Theorem end_projection_not_consulted (handleGoogleApiError : Exn -> Exn)
    (helpers : RecurringEventHelpers)
    (f f' : string -> gmap string JSValue -> Completion string)
    (args : Args.t) (svc : Service) :
  Args.modificationScope args <> ScopeFuture
  \/ truthy_str (Args.end_ args) = true ->
  run (updateEventWithScope handleGoogleApiError (withCalculateEndTime helpers f) args)
      svc []
  = run (updateEventWithScope handleGoogleApiError (withCalculateEndTime helpers f') args)
        svc [].
Proof.
  intros H.
  unfold updateEventWithScope, updateSingleInstance, updateAllInstances,
    updateFutureInstances, withCalculateEndTime.
  cbn [formatInstanceId buildUpdateRequestBody calculateUntilDate
       updateRecurrenceWithUntil calculateEndTime cleanEventForDuplication].
  destruct (Args.modificationScope args); try reflexivity.
  destruct H as [H|H]; [contradiction|].
  rewrite H. reflexivity.
Qed.

(* ===================================================================== *)
(** * The further properties on worked data *)
(* ===================================================================== *)

Lemma isoDateTimeWithTimezone_shape_witness :
  (String.length "2030-09-01T09:00:00-07:00" = 20%nat
   \/ String.length "2030-09-01T09:00:00-07:00" = 25%nat)
  /\ String.get 4 "2030-09-01T09:00:00-07:00" = Some "-"%char
  /\ String.get 7 "2030-09-01T09:00:00-07:00" = Some "-"%char
  /\ String.get 10 "2030-09-01T09:00:00-07:00" = Some "T"%char
  /\ String.get 13 "2030-09-01T09:00:00-07:00" = Some ":"%char
  /\ String.get 16 "2030-09-01T09:00:00-07:00" = Some ":"%char.
Proof.
  apply (isoDateTimeWithTimezone_shape "2030-09-01T09:00:00-07:00").
  reflexivity.
Defined.

Lemma accepted_command_invariants_witness :
  isoDateTimeWithTimezone "2030-09-01T09:00:00-07:00" = true
  /\ exists t, IsoDate.parse "2030-09-01T09:00:00-07:00" = Some t /\ Demo.now < t.
Proof.
  destruct (accepted_command_invariants IsoDate.parse Demo.now
              (JObj Demo.objFuture) Demo.argsFuture)
    as (_ & _ & _ & Hfuture & _).
  - vm_compute. reflexivity.
  - apply (Hfuture "2030-09-01T09:00:00-07:00"). reflexivity.
Defined.

Lemma required_strings_witness :
  UpdateEventArgumentsSchema IsoDate.parse Demo.now
    (JObj (delete "timeZone" Demo.objAll)) = None.
Proof.
  apply (required_strings IsoDate.parse Demo.now (delete "timeZone" Demo.objAll)
           "timeZone").
  - right. right. left. reflexivity.
  - intros s. vm_compute. discriminate.
Defined.

Lemma unknown_property_ignored_witness :
  UpdateEventArgumentsSchema IsoDate.parse Demo.now
    (JObj (<["extra" := JBool true]> Demo.objAll))
  = UpdateEventArgumentsSchema IsoDate.parse Demo.now (JObj Demo.objAll).
Proof.
  apply (unknown_property_ignored IsoDate.parse Demo.now Demo.objAll "extra"
           (JBool true)).
  cbn. intuition discriminate.
Defined.

Lemma classification_failure_witness :
  run (updateEventWithScope Sample.wrap Demo.helpers Demo.argsAll)
      Sample.serviceNotFound []
  = (Raised Below (Error "Google API Error"),
     [Detected "E1" "primary" (Abrupt (Thrown (JStr "404")))]).
Proof.
  apply (classification_failure Sample.wrap Demo.helpers Demo.argsAll
           Sample.serviceNotFound (Thrown (JStr "404"))).
  reflexivity.
Defined.

Lemma service_rejection_unmapped_witness :
  (run (updateEventWithScope Sample.wrap Demo.helpers Demo.argsAll)
       Sample.serviceRejectingPatch []).1
  = Raised Below (Thrown (JStr "403")).
Proof.
  apply (service_rejection_unmapped Sample.wrap Demo.helpers Demo.argsAll
           Sample.serviceRejectingPatch
           (EventsPatch {| Patch.calendarId := "primary"; Patch.eventId := "E1";
                           Patch.requestBody := {["summary" := JStr "Standup"]};
                           Patch.sendUpdates := Some SendNone |})).
  in_list.
Defined.

Lemma single_scope_patches_instance_witness :
  exists originalStartTime instanceId body,
    Args.originalStartTime Demo.argsSingle = Some originalStartTime
    /\ formatInstanceId Demo.helpers "E1" originalStartTime = Normal instanceId
    /\ buildUpdateRequestBody Demo.helpers Demo.argsSingle = Normal body
    /\ instanceId = "E1_2030-08-15T10:00:00-07:00".
Proof.
  destruct (single_scope_patches_instance Demo.handleGoogleApiError Demo.helpers
              Demo.argsSingle (Demo.service TypeRecurring)
              (EventsPatch {| Patch.calendarId := "primary";
                              Patch.eventId := "E1_2030-08-15T10:00:00-07:00";
                              Patch.requestBody := ∅;
                              Patch.sendUpdates := None |}))
    as (ost & instanceId & body & Host & Hid & Hbody & Hrq).
  - reflexivity.
  - in_list.
  - exists ost, instanceId, body. repeat split; try assumption.
    now injection Hrq.
Defined.

Lemma returned_event_witness :
  exists rq r,
    last (run (updateEventWithScope Demo.handleGoogleApiError Demo.helpers Demo.argsFuture)
              (Demo.service TypeRecurring) []).2
    = Some (Called rq (Normal r))
    /\ data r
       = Some (<["id" := JStr "E2"]>
                 (Insert.requestBody
                    (Demo.insertion "2030-09-01T09:00:00-07:00"
                                    "2030-09-01T16:30:00.000Z")))
    /\ exists p, rq = EventsInsert p.
Proof.
  apply (returned_event Demo.handleGoogleApiError Demo.helpers Demo.argsFuture
           (Demo.service TypeRecurring)).
  vm_compute. reflexivity.
Defined.

Lemma future_scope_without_rules_witness :
  (run (updateEventWithScope Demo.handleGoogleApiError Demo.helpers Demo.argsFuture)
       (Sample.serviceHolding Sample.standalone) []).1
  = Raised Here (Error "Event does not have recurrence rules")
  /\ requests
       (run (updateEventWithScope Demo.handleGoogleApiError Demo.helpers Demo.argsFuture)
            (Sample.serviceHolding Sample.standalone) []).2
     = [EventsGet Demo.fetch].
Proof.
  apply (future_scope_without_rules Demo.handleGoogleApiError Demo.helpers
           Demo.argsFuture (Sample.serviceHolding Sample.standalone) Demo.fetch
           {| data := Some Sample.standalone |} Sample.standalone).
  - in_list.
  - reflexivity.
  - vm_compute. reflexivity.
Defined.

Lemma future_scope_with_any_rule_list_witness :
  In (EventsPatch Demo.truncation)
     (requests
        (run (updateEventWithScope Demo.handleGoogleApiError Demo.helpers Demo.argsFuture)
             (Sample.serviceHolding Sample.emptyRules) []).2).
Proof.
  apply (future_scope_with_any_rule_list Demo.handleGoogleApiError Demo.helpers
           Demo.argsFuture (Sample.serviceHolding Sample.emptyRules) Demo.fetch
           {| data := Some Sample.emptyRules |} Sample.emptyRules []
           "2030-09-01T09:00:00-07:00"
           (JArr [JStr "RRULE:FREQ=WEEKLY;UNTIL=2030-09-01T09:00:00-07:00"])).
  - in_list.
  - reflexivity.
  - vm_compute. reflexivity.
  - reflexivity.
  - reflexivity.
Defined.

Lemma body_failure_after_truncation_witness :
  (run (updateEventWithScope Demo.handleGoogleApiError Sample.helpersFailingBody
          Demo.argsFuture) (Demo.service TypeRecurring) []).1
  = Raised Below (Error "cannot build")
  /\ exists g,
       requests
         (run (updateEventWithScope Demo.handleGoogleApiError Sample.helpersFailingBody
                 Demo.argsFuture) (Demo.service TypeRecurring) []).2
       = [EventsGet g; EventsPatch Demo.truncation].
Proof.
  apply (body_failure_after_truncation Demo.handleGoogleApiError
           Sample.helpersFailingBody Demo.argsFuture (Demo.service TypeRecurring)
           Demo.truncation
           {| data := Some (applyPatch Demo.original
                              (Patch.requestBody Demo.truncation)) |}).
  - reflexivity.
  - reflexivity.
  - in_list.
Defined.

Lemma inserted_event_properties_witness :
  exists cleaned requestBody,
    cleanEventForDuplication Demo.helpers Demo.original = Normal cleaned
    /\ buildUpdateRequestBody Demo.helpers Demo.argsFuture = Normal requestBody
    /\ Insert.requestBody
         (Demo.insertion "2030-09-01T09:00:00-07:00" "2030-09-01T16:30:00.000Z")
       !! "summary"
       = match requestBody !! "summary" with
         | Some v => Some v
         | None => cleaned !! "summary"
         end.
Proof.
  destruct (inserted_event_properties Demo.handleGoogleApiError Demo.helpers
              Demo.argsFuture (Demo.service TypeRecurring)
              (Demo.insertion "2030-09-01T09:00:00-07:00" "2030-09-01T16:30:00.000Z")
              (Demo.accepted
                 (Demo.insertion "2030-09-01T09:00:00-07:00"
                                 "2030-09-01T16:30:00.000Z")))
    as (g & r & originalEvent & cleaned & requestBody
        & Hfetch & Hdata & Hclean & Hbody & Hprops & _).
  - in_list.
  - exists (delete "id" Demo.original), ∅.
    split; [reflexivity|]. split; [reflexivity|].
    injection Hbody as <-.
    assert (Horiginal : originalEvent = Demo.original).
    { cbn in Hfetch.
      destruct Hfetch as [Hf|[Hf|[Hf|[Hf|[]]]]]; try discriminate Hf.
      injection Hf as _ <-. injection Hdata as <-. reflexivity. }
    subst originalEvent. injection Hclean as <-.
    apply Hprops; discriminate.
Defined.

Lemma omitted_sendUpdates_stays_absent_witness :
  Patch.sendUpdates
    {| Patch.calendarId := "primary";
       Patch.eventId := "E1_2030-08-15T10:00:00-07:00";
       Patch.requestBody := ∅;
       Patch.sendUpdates := Args.sendUpdates Demo.argsSingle |}
  = None.
Proof.
  apply (omitted_sendUpdates_stays_absent Demo.handleGoogleApiError IsoDate.parse
           Demo.now Demo.toString Demo.helpers Demo.objSingle
           (Demo.service TypeRecurring)
           (EventsPatch {| Patch.calendarId := "primary";
                           Patch.eventId := "E1_2030-08-15T10:00:00-07:00";
                           Patch.requestBody := ∅;
                           Patch.sendUpdates := Args.sendUpdates Demo.argsSingle |})).
  - vm_compute. reflexivity.
  - in_list.
  - reflexivity.
Defined.

Lemma listed_calendars_invariant_witness :
  NoDup ["work"; "home"] /\ (1 <= length ["work"; "home"] <= 50)%nat
  /\ Forall (fun id : string => id <> EmptyString) ["work"; "home"].
Proof.
  apply (listed_calendars_invariant Sample.jsonParse IsoDate.parse
           (JObj (Sample.listObject (JArr [JStr "work"; JStr "home"])
                    JUndefined JUndefined))
           {| ListArgs.calendarId := inr ["work"; "home"];
              ListArgs.timeMin := None; ListArgs.timeMax := None |}).
  vm_compute. reflexivity.
Defined.

Lemma listed_range_ordered_witness :
  exists t1 t2,
    IsoDate.parse "2030-01-01T00:00:00Z" = Some t1
    /\ IsoDate.parse "2030-01-02T00:00:00Z" = Some t2 /\ t1 < t2.
Proof.
  apply (listed_range_ordered Sample.jsonParse IsoDate.parse
           (JObj (Sample.listObject (JStr "primary")
                    (JStr "2030-01-01T00:00:00Z") (JStr "2030-01-02T00:00:00Z")))
           {| ListArgs.calendarId := inl "primary";
              ListArgs.timeMin := Some "2030-01-01T00:00:00Z";
              ListArgs.timeMax := Some "2030-01-02T00:00:00Z" |}).
  - vm_compute. reflexivity.
  - reflexivity.
  - reflexivity.
Defined.

Lemma bracketed_calendarId_witness :
  ListEventsArgumentsSchema Sample.jsonParse IsoDate.parse
    (JObj (Sample.listObject (JStr "[primary]") JUndefined JUndefined))
  = Some {| ListArgs.calendarId := inl "[primary]";
            ListArgs.timeMin := None; ListArgs.timeMax := None |}.
Proof.
  destruct (bracketed_calendarId Sample.jsonParse IsoDate.parse
              (Sample.listObject (JStr "[primary]") JUndefined JUndefined)
              "[primary]")
    as (Hplain & _).
  - vm_compute. reflexivity.
  - reflexivity.
  - reflexivity.
  - vm_compute. reflexivity.
  - vm_compute. reflexivity.
  - apply Hplain. reflexivity.
Defined.

Lemma create_accepts_either_order_witness :
  exists a',
    CreateEventArgumentsSchema
      (JObj (swapped "start" "end"
               (Sample.createObject "2030-01-02T10:00:00Z" "2030-01-02T11:00:00Z")))
    = Some a'
    /\ CreateArgs.start a' = "2030-01-02T11:00:00Z"
    /\ CreateArgs.end_ a' = "2030-01-02T10:00:00Z".
Proof.
  apply (create_accepts_either_order
           (Sample.createObject "2030-01-02T10:00:00Z" "2030-01-02T11:00:00Z")
           (Sample.createArgs "2030-01-02T10:00:00Z" "2030-01-02T11:00:00Z")).
  vm_compute. reflexivity.
Defined.

Lemma search_accepts_either_order_witness :
  exists a',
    SearchEventsArgumentsSchema
      (JObj (swapped "timeMin" "timeMax"
               (Sample.searchObject "2030-01-01T00:00:00Z" "2030-01-02T00:00:00Z")))
    = Some a'
    /\ SearchArgs.timeMin a' = Some "2030-01-02T00:00:00Z"
    /\ SearchArgs.timeMax a' = Some "2030-01-01T00:00:00Z".
Proof.
  apply (search_accepts_either_order
           (Sample.searchObject "2030-01-01T00:00:00Z" "2030-01-02T00:00:00Z")
           {| SearchArgs.calendarId := "primary"; SearchArgs.query := "standup";
              SearchArgs.timeMin := Some "2030-01-01T00:00:00Z";
              SearchArgs.timeMax := Some "2030-01-02T00:00:00Z" |}).
  vm_compute. reflexivity.
Defined.

Lemma formatEventList_app_witness :
  formatEventList Sample.toString ([Sample.bare] ++ [Sample.bare])%list
  = formatEventList Sample.toString [Sample.bare] ++ nl
      ++ formatEventList Sample.toString [Sample.bare].
Proof.
  apply (formatEventList_app Sample.toString [Sample.bare] [Sample.bare]);
    discriminate.
Defined.

Lemma reminders_none_witness :
  reminderInfo Sample.toString
    (Sample.withReminders {| Cal.useDefault := Some false; Cal.overrides := Some [] |})
  = nl ++ "Reminders: None"
  <-> default false (Some false) = false
      /\ default [] (Some ([] : list Cal.EventReminder)) = [].
Proof.
  apply (reminders_none Sample.toString
           (Sample.withReminders
              {| Cal.useDefault := Some false; Cal.overrides := Some [] |})
           {| Cal.useDefault := Some false; Cal.overrides := Some [] |}).
  reflexivity.
Defined.

Lemma meetLink_first_video_witness :
  meetLink
    (Sample.withEntryPoints
       [ {| Cal.entryPointType := Some "phone"; Cal.uri := Some "tel:+1-555-0100" |};
         {| Cal.entryPointType := Some "video"; Cal.uri := None |};
         {| Cal.entryPointType := Some "video";
            Cal.uri := Some "https://meet.example/abc" |} ])
  = EmptyString.
Proof.
  apply (meetLink_first_video
           (Sample.withEntryPoints
              [ {| Cal.entryPointType := Some "phone"; Cal.uri := Some "tel:+1-555-0100" |};
                {| Cal.entryPointType := Some "video"; Cal.uri := None |};
                {| Cal.entryPointType := Some "video";
                   Cal.uri := Some "https://meet.example/abc" |} ])
           [ {| Cal.entryPointType := Some "phone"; Cal.uri := Some "tel:+1-555-0100" |} ]
           [ {| Cal.entryPointType := Some "video";
                Cal.uri := Some "https://meet.example/abc" |} ]
           {| Cal.entryPointType := Some "video"; Cal.uri := None |}).
  - reflexivity.
  - intros x [<-|[]]. discriminate.
  - reflexivity.
Defined.

Lemma end_projection_not_consulted_witness :
  run (updateEventWithScope Demo.handleGoogleApiError
         (withCalculateEndTime Demo.helpers (calculateEndTime Demo.helpers))
         Demo.argsSingle) (Demo.service TypeRecurring) []
  = run (updateEventWithScope Demo.handleGoogleApiError
           (withCalculateEndTime Demo.helpers
              (fun _ _ => Abrupt (Error "no projection")))
           Demo.argsSingle) (Demo.service TypeRecurring) [].
Proof.
  apply (end_projection_not_consulted Demo.handleGoogleApiError Demo.helpers
           (calculateEndTime Demo.helpers)
           (fun _ _ => Abrupt (Error "no projection"))
           Demo.argsSingle (Demo.service TypeRecurring)).
  left. discriminate.
Defined.
